(** * docker-slim: the HTTP probe and the build and profile commands

    A shallow embedding of

    - [internal/app/master/inspectors/container/probes/http/custom_probe.go]:
      [NewCustomProbe] (the port plan) and [Start] (the probe worker);
    - [internal/app/master/commands/build.go]: [OnBuild];
    - the profile command: [OnProfile].

    Conventions.  A Go [string] is a [string]; an [int], [int64] or
    [time.Duration] is a 64-bit two's complement integer carried in [Z]
    ([wrap64]); a [uint64] counter is a [Z] modulo 2^64 ([wrapU64]); a
    [map[K]V] is a [gmap], a map used as a set a [gset], a slice a list (a
    nil slice is the empty list).  A run-time panic is an outcome of its
    own.  The order in which [range] visits a map is a parameter
    ([MapOrder]).  What a function does to the outside is recorded as a
    trace of [event]s; the collaborators of the commands (Docker client,
    inspectors, builders, file system) and the network answer through the
    records [Env] and [Network].  Logging through logrus goes to standard
    error and is left out. *)

From stdpp Require Import gmap strings list fin_maps.
From Stdlib Require Import ZArith Ascii DecimalString.

Open Scope Z_scope.

(** ** Go run-time outcomes *)

Inductive panic :=
| IndexOutOfRange   (* [s[0]] on an empty or nil slice *)
| NilDereference.   (* method call or field access through a nil pointer *)

Inductive go (A : Type) :=
| Ret (a : A)
| Panics (p : panic).
Arguments Ret {A} a.
Arguments Panics {A} p.

#[global] Instance go_ret : MRet go := λ A a, Ret a.
#[global] Instance go_bind : MBind go := λ A B k c,
  match c with
  | Ret a => k a
  | Panics p => Panics p
  end.

(** ** Data model of the port planner *)

(** [dockerapi.Port] is a string such as ["80/tcp"]. *)
Abbreviation Port := string (only parsing).

(** [dockerapi.PortBinding] *)
Record PortBinding := { HostIP : string; HostPort : string }.

(** An entry of [DockerfileInfo.ImageStack] *)
Record ImageInfo := { FullName : string; ID : string }.

(** [*dockerfile.Info] as the image inspector publishes it. *)
Record DockerfileInfoT := {
  ExeUser : string;
  AllUsers : list string;
  ImageStack : list ImageInfo;
  ExposedPorts : list string       (* in the order of the EXPOSE instructions *)
}.

(** The fields of [container.Inspector] (and of the [image.Inspector] it
    points to) that the probe reads.  [DockerfileInfo] is a pointer that
    [OnBuild] tests for nil. *)
Record Inspector := {
  CmdPort : Port;
  EvtPort : Port;
  NetworkSettings_Ports : gmap string (list PortBinding);
      (* ContainerInfo.NetworkSettings.Ports *)
  DockerfileInfo : option DockerfileInfoT;
      (* ImageInspector.DockerfileInfo *)
  DockerHostIP : string
}.

(** [config.HTTPProbeCmd], as used by the probe. *)
Record HTTPProbeCmd := {
  Protocol : string;
  Method : string;
  Resource : string;
  Headers : list string;
  Body : string;
  Username : string;
  Password : string
}.

Record CustomProbe := {
  PrintState : bool;
  PrintPrefix : string;
  Ports : list string;
  Cmds : list HTTPProbeCmd;
  RetryCount : Z;
  RetryWait : Z;
  TargetPorts : list N;          (* []uint16 *)
  ProbeFull : bool;
  ContainerInspector : Inspector
}.

(** Go leaves the order of [range] over a map unspecified.  A [MapOrder]
    is one choice of that order for the two maps [NewCustomProbe] ranges
    over; every statement below holds for all of them. *)
Record MapOrder := {
  range_ports : gmap string (list PortBinding) → list (string * list PortBinding);
  range_ports_perm : ∀ m, range_ports m ≡ₚ map_to_list m;
  range_set : gset string → list string;
  range_set_perm : ∀ s, range_set s ≡ₚ elements s
}.

Definition sorted_order : MapOrder :=
  {| range_ports := map_to_list;
     range_ports_perm := λ m, reflexivity (R := Permutation) (map_to_list m);
     range_set := elements;
     range_set_perm := λ s, reflexivity (R := Permutation) (elements s) |}.

Definition reversed_order : MapOrder :=
  {| range_ports := λ m, reverse (map_to_list m);
     range_ports_perm := λ m, reverse_Permutation (map_to_list m);
     range_set := λ s, reverse (elements s);
     range_set_perm := λ s, reverse_Permutation (elements s) |}.

(** [fmt.Sprintf("%v/tcp", pnum)] for a [uint16] *)
Definition port_spec (pnum : N) : Port :=
  NilZero.string_of_uint (N.to_uint pnum) +:+ "/tcp".

(** [if strings.Index(portInfo, "/") == -1 { portInfo = portInfo + "/tcp" }] *)
Definition normalize_port (portInfo : string) : Port :=
  match String.index 0 "/" portInfo with
  | None => portInfo +:+ "/tcp"
  | Some _ => portInfo
  end.

Definition is_control (insp : Inspector) (k : Port) : bool :=
  bool_decide (k = CmdPort insp) || bool_decide (k = EvtPort insp).

(** Lines 61-68: the set of available host ports. *)
Fixpoint availablePorts_loop (insp : Inspector)
    (entries : list (string * list PortBinding)) (availablePorts : gset string)
    : go (gset string) :=
  match entries with
  | [] => Ret availablePorts
  | (nsPortKey, nsPortData) :: rest =>
      if is_control insp nsPortKey then
        availablePorts_loop insp rest availablePorts
      else
        match nsPortData with
        | [] => Panics IndexOutOfRange
        | b :: _ => availablePorts_loop insp rest ({[ HostPort b ]} ∪ availablePorts)
        end
  end.

(** Lines 73-80: explicit target ports. *)
Fixpoint targetPorts_loop (insp : Inspector) (targets : list N)
    (ports : list string) : go (list string) :=
  match targets with
  | [] => Ret ports
  | pnum :: rest =>
      let pspec := port_spec pnum in
      match NetworkSettings_Ports insp !! pspec with
      | Some data =>
          match data with
          | [] => Panics IndexOutOfRange
          | b :: _ => targetPorts_loop insp rest (ports ++ [HostPort b])
          end
      | None => targetPorts_loop insp rest ports
      end
  end.

(** Lines 85-104: the exposed ports, visited by the caller from the last
    one to the first. *)
Fixpoint exposedPorts_loop (insp : Inspector) (exposed_rev : list string)
    (ports : list string) (availablePorts : gset string)
    : go (list string * gset string) :=
  match exposed_rev with
  | [] => Ret (ports, availablePorts)
  | portInfo :: rest =>
      let pspec := normalize_port portInfo in
      match NetworkSettings_Ports insp !! pspec with
      | Some data =>
          match data with
          | [] => Panics IndexOutOfRange
          | b :: _ =>
              let hostPort := HostPort b in
              exposedPorts_loop insp rest (ports ++ [hostPort])
                (if bool_decide (hostPort ∈ availablePorts)
                 then availablePorts ∖ {[ hostPort ]} else availablePorts)
          end
      | None => exposedPorts_loop insp rest ports availablePorts
      end
  end.

(** The Go [error] values that matter to the callers. *)
Inductive inner_error := io_EOF | inner_other.
Inductive error :=
| url_Error (Err : inner_error) (text : string)   (* [*url.Error] *)
| plain_error (text : string).                    (* any other error type *)

(** [err.Error()] *)
Definition Error (err : error) : string :=
  match err with
  | url_Error _ text => text
  | plain_error text => text
  end.

(** [NewCustomProbe] *)
Definition NewCustomProbe (order : MapOrder) (inspector : Inspector)
    (cmds : list HTTPProbeCmd) (retryCount retryWait : Z)
    (targetPorts : list N) (probeFull printState : bool) (printPrefix : string)
    : go (CustomProbe * option error) :=
  let probe ports :=
    {| PrintState := printState; PrintPrefix := printPrefix; Ports := ports;
       Cmds := cmds; RetryCount := retryCount; RetryWait := retryWait;
       TargetPorts := targetPorts; ProbeFull := probeFull;
       ContainerInspector := inspector |} in
  availablePorts ←
    availablePorts_loop inspector
      (range_ports order (NetworkSettings_Ports inspector)) ∅;
  if bool_decide (0 < length targetPorts)%nat then
    ports ← targetPorts_loop inspector targetPorts [];
    Ret (probe ports, None)
  else
    match DockerfileInfo inspector with
    | None => Panics NilDereference
    | Some info =>
        '(ports, availablePorts) ←
          exposedPorts_loop inspector (reverse (ExposedPorts info)) []
            availablePorts;
        Ret (probe (ports ++ range_set order availablePorts), None)
    end.

(** ** The command report ([pkg/report]) *)

Inductive CmdState :=
| CmdStateStarted
| CmdStateCompleted
| CmdStateDone
| CmdStateError.

(** The fields of [report.BuildCommand] and [report.ProfileCommand] that the
    commands fill from text; the size, ratio and metadata fields are left
    to the report package. *)
Record CommandReport := {
  State : CmdState;
  ReportError : string;
  ImageReference : string;          (* [OriginalImage] for profile *)
  MinifiedImage : string;
  MinifiedImageHasData : bool;
  ArtifactLocation : string;
  ContainerReportName : string;
  SeccompProfileName : string;
  AppArmorProfileName : string
}.

Definition new_report (imageRef : string) : CommandReport :=
  {| State := CmdStateStarted; ReportError := ""; ImageReference := imageRef;
     MinifiedImage := ""; MinifiedImageHasData := false; ArtifactLocation := "";
     ContainerReportName := ""; SeccompProfileName := "";
     AppArmorProfileName := "" |}.

Definition set_State (s : CmdState) (r : CommandReport) : CommandReport :=
  {| State := s; ReportError := ReportError r; ImageReference := ImageReference r;
     MinifiedImage := MinifiedImage r;
     MinifiedImageHasData := MinifiedImageHasData r;
     ArtifactLocation := ArtifactLocation r;
     ContainerReportName := ContainerReportName r;
     SeccompProfileName := SeccompProfileName r;
     AppArmorProfileName := AppArmorProfileName r |}.

Definition set_Error (e : string) (r : CommandReport) : CommandReport :=
  {| State := State r; ReportError := e; ImageReference := ImageReference r;
     MinifiedImage := MinifiedImage r;
     MinifiedImageHasData := MinifiedImageHasData r;
     ArtifactLocation := ArtifactLocation r;
     ContainerReportName := ContainerReportName r;
     SeccompProfileName := SeccompProfileName r;
     AppArmorProfileName := AppArmorProfileName r |}.

(** ** Machine integers and text *)

(** Go [int], [int64] and [time.Duration]: 64-bit two's complement. *)
Definition wrap64 (z : Z) : Z := (z + 2 ^ 63) mod 2 ^ 64 - 2 ^ 63.

(** Go [uint64] *)
Definition wrapU64 (z : Z) : Z := z mod 2 ^ 64.

(** [time.Second], in nanoseconds *)
Definition time_Second : Z := 1000000000.

(** [fmt.Sprintf("%v", z)] for an integer *)
Definition itoa (z : Z) : string := NilZero.string_of_int (Z.to_int z).

Definition nl : string := String (Ascii.ascii_of_nat 10) "".

(** [strings.SplitN(s, sep, 2)]: [None] when the result has a single part,
    else the text before and after the first separator. *)
Fixpoint SplitN2 (sep : Ascii.ascii) (s : string) : option (string * string) :=
  match s with
  | EmptyString => None
  | String c s' =>
      if Ascii.eqb c sep then Some (EmptyString, s')
      else match SplitN2 sep s' with
           | Some (a, b) => Some (String c a, b)
           | None => None
           end
  end.

(** [strings.Split(s, sep)] for a one-character separator *)
Fixpoint Split (sep : Ascii.ascii) (s : string) : list string :=
  match s with
  | EmptyString => [EmptyString]
  | String c s' =>
      if Ascii.eqb c sep then EmptyString :: Split sep s'
      else match Split sep s' with
           | part :: parts => String c part :: parts
           | [] => [String c EmptyString]
           end
  end.

(** White space as [strings.TrimSpace] sees it in ASCII text. *)
Definition is_space (c : Ascii.ascii) : bool :=
  let n := Ascii.nat_of_ascii c in
  (Nat.eqb n 32 || (Nat.leb 9 n && Nat.leb n 13))%bool.

Fixpoint TrimLeft (s : string) : string :=
  match s with
  | String c s' => if is_space c then TrimLeft s' else s
  | EmptyString => EmptyString
  end.

Fixpoint TrimRight (s : string) : string :=
  match s with
  | EmptyString => EmptyString
  | String c s' =>
      match TrimRight s' with
      | EmptyString => if is_space c then EmptyString else String c EmptyString
      | t => String c t
      end
  end.

Definition TrimSpace (s : string) : string := TrimRight (TrimLeft s).

(** ** The probe worker ([Start]) *)

Definition probeRetryCount : Z := 5.

(** [*http.Request], as far as the probe builds it. *)
Record Request := {
  req_Method : string;
  req_URL : string;
  req_Body : string;
  req_Header : list (string * string);
  req_BasicAuth : option (string * string)
}.

Record Response := { StatusCode : Z }.

(** Result of [httpClient.Do]: by the contract of [net/http] a nil error
    comes with a non-nil response whose [Body] is non-nil. *)
Inductive DoResult :=
| DoOk (res : Response)
| DoErr (res : option Response) (err : error).

(** Everything the worker and the orchestrator do that is visible from
    outside. *)
Inductive event :=
| Stdout (text : string)                (* fmt.Printf / fmt.Println *)
| Sleep (d : Z)                         (* time.Sleep(d), nanoseconds *)
| HTTPCall (req : Request) (ok : bool)  (* httpClient.Do(req); ok: err == nil *)
| Seek0                                 (* reqBody.Seek(0, 0) *)
| BodyDrain (call : Z)                  (* io.Copy(ioutil.Discard, res.Body) *)
| BodyClose (call : Z)                  (* res.Body.Close() *)
| CloseDoneChan                         (* close(p.doneChan) *)
| GoProbeWorker (p : CustomProbe)       (* go func() { ... }() in Start *)
| Call (collaborator : string)          (* a call into another package *)
| ReportSave (r : CommandReport).       (* cmdReport.Save() *)

(** The world outside the process, as the worker meets it. *)
Record Network (World : Type) := {
  http_NewRequest_ok : string → string → bool;
      (* http.NewRequest(method, url, body) returns a nil error *)
  httpClient_Do : World → Request → DoResult * World;
  time_Sleep : Z → World → World;
  time_Now : World → string
      (* time.Now().UTC().Format(time.RFC3339) *)
}.
Arguments http_NewRequest_ok {World} _ _ _.
Arguments httpClient_Do {World} _ _ _.
Arguments time_Sleep {World} _ _ _.
Arguments time_Now {World} _ _.

Section Worker.
Context {World : Type} (net : Network World).

(** Local state of the goroutine. *)
Record wstate := {
  callCount : Z;          (* uint64 *)
  errCount : Z;           (* uint64 *)
  okCount : Z;            (* uint64 *)
  trace : list event;     (* oldest first *)
  deferred : list Z;      (* pending [defer res.Body.Close()], newest first *)
  world : World
}.

Inductive wres (A : Type) :=
| WRet (a : A) (st : wstate)
| WPanic (p : panic) (st : wstate).
Arguments WRet {A} a st.
Arguments WPanic {A} p st.

Definition W (A : Type) : Type := wstate → wres A.

#[local] Instance W_ret : MRet W := λ A a st, WRet a st.
#[local] Instance W_bind : MBind W := λ A B k c st,
  match c st with
  | WRet a st' => k a st'
  | WPanic p st' => WPanic p st'
  end.

Definition emit (e : event) : W unit := λ st,
  WRet tt {| callCount := callCount st; errCount := errCount st;
             okCount := okCount st; trace := trace st ++ [e];
             deferred := deferred st; world := world st |}.

Definition wpanic {A} (p : panic) : W A := λ st, WPanic p st.

Definition sleep (d : Z) : W unit := λ st,
  WRet tt {| callCount := callCount st; errCount := errCount st;
             okCount := okCount st; trace := trace st ++ [Sleep d];
             deferred := deferred st; world := time_Sleep net d (world st) |}.

Definition now : W string := λ st, WRet (time_Now net (world st)) st.

Definition get_callCount : W Z := λ st, WRet (callCount st) st.
Definition get_okCount : W Z := λ st, WRet (okCount st) st.
Definition get_errCount : W Z := λ st, WRet (errCount st) st.

(** [callCount++] *)
Definition incr_callCount : W unit := λ st,
  WRet tt {| callCount := wrapU64 (callCount st + 1); errCount := errCount st;
             okCount := okCount st; trace := trace st;
             deferred := deferred st; world := world st |}.
Definition incr_errCount : W unit := λ st,
  WRet tt {| callCount := callCount st; errCount := wrapU64 (errCount st + 1);
             okCount := okCount st; trace := trace st;
             deferred := deferred st; world := world st |}.
Definition incr_okCount : W unit := λ st,
  WRet tt {| callCount := callCount st; errCount := errCount st;
             okCount := wrapU64 (okCount st + 1); trace := trace st;
             deferred := deferred st; world := world st |}.

(** [defer res.Body.Close()]: runs when the goroutine's function
    returns, not when the enclosing loop body ends. *)
Definition defer_BodyClose (call : Z) : W unit := λ st,
  WRet tt {| callCount := callCount st; errCount := errCount st;
             okCount := okCount st; trace := trace st;
             deferred := call :: deferred st; world := world st |}.

(** [httpClient.Do(req)]; a nil [req] is dereferenced by the client. *)
Definition client_Do (req : option Request) : W DoResult := λ st,
  match req with
  | None => WPanic NilDereference st
  | Some r =>
      let '(res, w) := httpClient_Do net (world st) r in
      WRet res
        {| callCount := callCount st; errCount := errCount st;
           okCount := okCount st;
           trace := trace st ++ [HTTPCall r (match res with DoOk _ => true | DoErr _ _ => false end)];
           deferred := deferred st; world := w |}
  end.

(** Lines 181-191: the header lines of the command. *)
Fixpoint add_headers (hlines : list string) (req : option Request)
    : W (option Request) :=
  match hlines with
  | [] => mret req
  | hline :: rest =>
      match SplitN2 ":"%char hline with
      | None => add_headers rest req       (* malformed header: ignored *)
      | Some (h0, h1) =>
          let hname := TrimSpace h0 in
          let hvalue := TrimSpace h1 in
          match req with
          | None => wpanic NilDereference  (* req.Header.Add on a nil req *)
          | Some r =>
              add_headers rest
                (Some {| req_Method := req_Method r; req_URL := req_URL r;
                         req_Body := req_Body r;
                         req_Header := req_Header r ++ [(hname, hvalue)];
                         req_BasicAuth := req_BasicAuth r |})
          end
      end
  end.

(** Lines 193-195 *)
Definition set_auth (cmd : HTTPProbeCmd) (req : option Request)
    : W (option Request) :=
  if negb (String.eqb (Username cmd) "") || negb (String.eqb (Password cmd) "") then
    match req with
    | None => wpanic NilDereference        (* req.SetBasicAuth on a nil req *)
    | Some r =>
        mret (Some {| req_Method := req_Method r; req_URL := req_URL r;
                      req_Body := req_Body r; req_Header := req_Header r;
                      req_BasicAuth := Some (Username cmd, Password cmd) |})
    end
  else mret req.

(** Lines 170-177 *)
Definition notReadyErrorWait (p : CustomProbe) : Z :=
  if 0 <? RetryWait p then wrap64 (RetryWait p * 2) else 16.
Definition webErrorWait (p : CustomProbe) : Z :=
  if 0 <? RetryWait p then RetryWait p else 8.
Definition otherErrorWait (p : CustomProbe) : Z :=
  if 0 <? RetryWait p then Z.quot (RetryWait p) 2 else 4.

(** Lines 234-246: the duration handed to [time.Sleep] after a failed
    attempt, in nanoseconds. *)
Definition backoff (p : CustomProbe) (err : error) : Z :=
  match err with
  | url_Error io_EOF _ => wrap64 (notReadyErrorWait p * time_Second)
  | url_Error inner_other _ => wrap64 (webErrorWait p * time_Second)
  | plain_error _ => wrap64 (otherErrorWait p * time_Second)
  end.

(** Lines 165-168 *)
Definition maxRetryCount (p : CustomProbe) : Z :=
  if 0 <? RetryCount p then RetryCount p else probeRetryCount.

(** Lines 180-247: one pass through the body of the retry loop.  The
    result is [true] when the loop is left by [break]. *)
Definition attempt (p : CustomProbe) (cmd : HTTPProbeCmd) (addr : string)
    (i : Z) : W bool :=
  let req :=
    if http_NewRequest_ok net (Method cmd) addr then
      Some {| req_Method := Method cmd; req_URL := addr; req_Body := Body cmd;
              req_Header := []; req_BasicAuth := None |}
    else None in
  req ← add_headers (Headers cmd) req;
  req ← set_auth cmd req;
  r ← client_Do req;
  _ ← incr_callCount;
  _ ← emit Seek0;
  call ← get_callCount;
  _ ← match r with
      | DoOk _ | DoErr (Some _) _ =>
          _ ← emit (BodyDrain call); defer_BodyClose call
      | DoErr None _ => mret tt
      end;
  let statusCode :=
    match r with DoOk res => itoa (StatusCode res) | DoErr _ _ => "error" end in
  let callErrorStr :=
    match r with
    | DoOk _ => ""
    | DoErr _ err => "error='" +:+ Error err +:+ "'"
    end in
  t ← now;
  _ ← (if PrintState p then
         emit (Stdout (PrintPrefix p +:+ " info=http.probe.call status=" +:+ statusCode
                       +:+ " method=" +:+ Method cmd +:+ " target=" +:+ addr
                       +:+ " attempt=" +:+ itoa (i + 1) +:+ " " +:+ callErrorStr
                       +:+ " time=" +:+ t +:+ nl))
       else mret tt);
  match r with
  | DoOk _ => _ ← incr_okCount; mret true
  | DoErr _ err => _ ← incr_errCount; _ ← sleep (backoff p err); mret false
  end.

(** Line 179: [for i := 0; i < maxRetryCount; i++] with [n] passes left. *)
Fixpoint retry_loop (p : CustomProbe) (cmd : HTTPProbeCmd) (addr : string)
    (n : nat) (i : Z) : W unit :=
  match n with
  | O => mret tt
  | S n' =>
      brk ← attempt p cmd addr i;
      if brk : bool then mret tt else retry_loop p cmd addr n' (i + 1)
  end.

(** Lines 155-160 *)
Definition protocols (cmd : HTTPProbeCmd) : list string :=
  if String.eqb (Protocol cmd) "" then ["http"; "https"] else [Protocol cmd].

(** Line 163 *)
Definition target_addr (p : CustomProbe) (proto port : string)
    (cmd : HTTPProbeCmd) : string :=
  proto +:+ "://" +:+ DockerHostIP (ContainerInspector p) +:+ ":" +:+ port
    +:+ Resource cmd.

(** Line 162 *)
Fixpoint protocols_loop (p : CustomProbe) (cmd : HTTPProbeCmd) (port : string)
    (protos : list string) : W unit :=
  match protos with
  | [] => mret tt
  | proto :: rest =>
      _ ← retry_loop p cmd (target_addr p proto port cmd)
            (Z.to_nat (maxRetryCount p)) 0;
      protocols_loop p cmd port rest
  end.

(** Line 152 *)
Fixpoint cmds_loop (p : CustomProbe) (port : string)
    (cmds : list HTTPProbeCmd) : W unit :=
  match cmds with
  | [] => mret tt
  | cmd :: rest =>
      _ ← protocols_loop p cmd port (protocols cmd);
      cmds_loop p port rest
  end.

(** Lines 146-252 *)
Fixpoint ports_loop (p : CustomProbe) (ports : list string) : W unit :=
  match ports with
  | [] => mret tt
  | port :: rest =>
      okc ← get_okCount;
      if (0 <? okc) && negb (ProbeFull p) then mret tt
      else _ ← cmds_loop p port (Cmds p); ports_loop p rest
  end.

(** Lines 125-129 *)
Definition warm_up (p : CustomProbe) : W unit :=
  _ ← sleep (wrap64 (9 * time_Second));
  if PrintState p then
    emit (Stdout (PrintPrefix p +:+ " state=http.probe.running" +:+ nl))
  else mret tt.

(** Lines 256-271 *)
Definition report_done (p : CustomProbe) : W unit :=
  _ ← (if PrintState p then
         calls ← get_callCount;
         errs ← get_errCount;
         oks ← get_okCount;
         _ ← emit (Stdout (PrintPrefix p +:+ " info=http.probe.summary total="
                           +:+ itoa calls +:+ " failures=" +:+ itoa errs
                           +:+ " successful=" +:+ itoa oks +:+ nl));
         let warning :=
           if calls =? 0 then "warning=no.calls"
           else if oks =? 0 then "warning=no.successful.calls"
           else "" in
         emit (Stdout (PrintPrefix p +:+ " state=http.probe.done " +:+ warning +:+ nl))
       else mret tt);
  emit CloseDoneChan.

(** Lines 123-272: the body of the goroutine. *)
Definition worker_body (p : CustomProbe) : W unit :=
  _ ← warm_up p;
  _ ← ports_loop p (Ports p);
  report_done p.

(** How the goroutine ended. *)
Inductive ending := Finished | Crashed (p : panic).

Record run := {
  run_end : ending;
  run_trace : list event;
  run_calls : Z;
  run_errs : Z;
  run_oks : Z;
  run_world : World
}.

(** The deferred calls run, newest first, when the function returns or
    panics. *)
Definition run_deferred (st : wstate) : list event :=
  trace st ++ (BodyClose <$> deferred st).

Definition initial (w : World) : wstate :=
  {| callCount := 0; errCount := 0; okCount := 0; trace := [];
     deferred := []; world := w |}.

Definition finish (e : ending) (st : wstate) : run :=
  {| run_end := e; run_trace := run_deferred st; run_calls := callCount st;
     run_errs := errCount st; run_oks := okCount st; run_world := world st |}.

Definition worker (p : CustomProbe) (w : World) : run :=
  match worker_body p (initial w) with
  | WRet _ st => finish Finished st
  | WPanic e st => finish (Crashed e) st
  end.

End Worker.

Arguments WRet {World A} a st.
Arguments WPanic {World A} p st.
#[global] Existing Instances W_ret W_bind.

(** [Start]: what the caller's goroutine does; the worker is spawned. *)
Definition Start (p : CustomProbe) : list event :=
  (if PrintState p then
     [Stdout (PrintPrefix p +:+ " state=http.probe.starting message='WAIT FOR HTTP PROBE TO FINISH'" +:+ nl)]
   else [])
  ++ [GoProbeWorker p].

(** ** The orchestration ([OnBuild], [OnProfile]) *)

(** How a command stops before the end of its function. *)
Inductive stop :=
| EarlyReturn                 (* a [return] in the middle of the function *)
| os_Exit (code : Z)
| Fatal (msg : string)        (* errutil.FailOn / errutil.Fail *)
| Panicked (p : panic).

(** A command writes events and either stops or goes on with a value. *)
Definition M (A : Type) : Type := list event * (stop + A).

#[global] Instance M_ret : MRet M := λ A a, ([], inr a).
#[global] Instance M_bind : MBind M := λ A B k c,
  match c with
  | (t, inl s) => (t, inl s)
  | (t, inr a) => let '(t', r) := k a in (t ++ t', r)
  end.

Definition Printf (text : string) : M unit := ([Stdout text], inr tt).
Definition Println (text : string) : M unit := ([Stdout (text +:+ nl)], inr tt).
Definition call (collaborator : string) : M unit := ([Call collaborator], inr tt).
Definition events (t : list event) : M unit := (t, inr tt).
Definition stop_with {A} (s : stop) : M A := ([], inl s).
Definition skip : M unit := mret tt.

(** Modelled from the spec: [errutil.FailOn], which is not among the
    sources; a non-nil error from a collaborator terminates the run. *)
Definition FailOn (err : option error) : M unit :=
  match err with
  | None => skip
  | Some e => stop_with (Fatal (Error e))
  end.

(** Modelled from the spec: [errutil.WarnOn]; the error is logged and the
    run continues. *)
Definition WarnOn (err : option error) : M unit := skip.

(** A panic of [NewCustomProbe] unwinds the command. *)
Definition lift_go {A} (c : go A) : M A :=
  match c with
  | Ret a => mret a
  | Panics p => stop_with (Panicked p)
  end.

(** [*config.ContinueAfter]; [ContinueChan] is a channel and appears only
    as the wait on it. *)
Record ContinueAfter := { Mode : string; Timeout : Z }.

(** What the collaborators answer during one run: the Docker client, the
    image and container inspectors, the image builders, the file system. *)
Record Env := {
  order : MapOrder;
  v_Current : string;                       (* v.Current() *)
  pid_and_time : string;                    (* os.Getpid() "." UTC time *)
  (* the basic ("fat") image builder *)
  NewBasicImageBuilder_err : option error;
  fatBuilder_Build_err : option error;
  fatBuilder_BuildLog : string;
  confirmNetwork_ok : bool;
  (* the image inspector *)
  image_NewInspector_err : option error;
  NoImage : bool;
  Inspect_err : option error;
  ImageInfo_ID : string;
  ImageInfo_VirtualSize : Z;
  ImageInfo_VirtualSize_human : string;     (* humanize.Bytes *)
  artifactLocation : string;                (* fsutil.PrepareImageStateDirs *)
  image_ProcessCollectedData_err : option error;
  image_DockerfileInfo : option DockerfileInfoT;
  SlimImageRepo : string;
  image_SeccompProfileName : string;
  image_AppArmorProfileName : string;
  (* the container inspector *)
  container_NewInspector_err : option error;
  RunContainer_err : option error;
  ContainerName : string;
  ContainerID : string;
  ContainerPortList : string;
  ContainerPortsInfo : string;
  container_CmdPort : string;
  container_EvtPort : string;
  container_Ports : gmap string (list PortBinding);
  container_DockerHostIP : string;
  ShutdownContainer_err : option error;
  HasCollectedData : bool;
  container_ProcessCollectedData_err : option error;
  (* the minified image builder *)
  NewImageBuilder_err : option error;
  builder_HasData : bool;
  builder_Build_err : option error;
  builder_BuildLog : string;
  builder_RepoName : string;
  (* the inspector of the minified image *)
  new_NewInspector_err : option error;
  new_NoImage : bool;
  new_Inspect_err : option error;
  new_VirtualSize : Z;
  new_VirtualSize_human : string;
  MinifiedBy_text : string;                 (* the ratio printed with %.2f *)
  (* the file system *)
  copyMetaArtifacts_ok : bool;
  fsutil_Remove_err : option error;
  DefaultContainerReportFileName : string   (* constant of pkg/report *)
}.

(** The container inspector once the container runs. *)
Definition containerInspector (env : Env) : Inspector :=
  {| CmdPort := container_CmdPort env; EvtPort := container_EvtPort env;
     NetworkSettings_Ports := container_Ports env;
     DockerfileInfo := image_DockerfileInfo env;
     DockerHostIP := container_DockerHostIP env |}.

(** [strings.Join(parts, ",")] *)
Fixpoint Join (parts : list string) : string :=
  match parts with
  | [] => ""
  | [a] => a
  | a :: rest => a +:+ "," +:+ Join rest
  end.

(** [%v] of a bool *)
Definition bool_text (b : bool) : string := if b then "true" else "false".

Definition nonempty (s : string) : bool := negb (String.eqb s "").

(** Lines 179-182 of [OnBuild] *)
Fixpoint print_image_stack (idx : Z) (stack : list ImageInfo) : M unit :=
  match stack with
  | [] => skip
  | layerInfo :: rest =>
      _ ← Printf ("docker-slim[build]: info=image.stack index=" +:+ itoa idx
                  +:+ " name='" +:+ FullName layerInfo +:+ "' id='"
                  +:+ ID layerInfo +:+ "'" +:+ nl);
      print_image_stack (idx + 1) rest
  end.

(** Lines 80-124 of [OnBuild]: the basic image built from a Dockerfile; the
    result is the image reference the rest of the command works on. *)
Definition build_basic_image (env : Env)
    (buildFromDockerfile imageRef customImageTag : string)
    (doShowBuildLogs : bool) : M string :=
  if nonempty buildFromDockerfile then
   _ ← Println "docker-slim[build]: state=building message='building basic image'";
   fatImageRepoNameTag ←
     (if nonempty customImageTag then
        match Split ":"%char customImageTag with
        | [_] => mret (customImageTag +:+ ".fat")
        | [citParts0; citParts1] => mret (citParts0 +:+ ".fat:" +:+ citParts1)
        | _ =>
            _ ← Printf ("docker-slim[build]: info=param.error status=malformed.custom.image.tag value="
                        +:+ customImageTag +:+ nl);
            _ ← Printf ("docker-slim[build]: state=exited version="
                        +:+ v_Current env +:+ nl);
            stop_with (os_Exit (-1))
        end
      else mret ("docker-slim-tmp-fat-image." +:+ pid_and_time env));
   _ ← Printf ("docker-slim[build]: info=basic.image.name value="
               +:+ fatImageRepoNameTag +:+ nl);
   _ ← call "builder.NewBasicImageBuilder";
   _ ← FailOn (NewBasicImageBuilder_err env);
   _ ← call "fatBuilder.Build";
   let err := fatBuilder_Build_err env in
   _ ← (if doShowBuildLogs then
          _ ← Println "docker-slim[build]: build logs (basic image) ====================";
          _ ← Println (fatBuilder_BuildLog env);
          Println "docker-slim[build]: end of build logs (basic image) ============="
        else skip);
   _ ← FailOn err;
   _ ← Println "docker-slim[build]: state=basic.image.build.completed";
   mret fatImageRepoNameTag
 else mret imageRef.

(** [OnBuild]: the 'build' command *)
Definition OnBuild (env : Env) (doDebug : bool)
    (buildFromDockerfile imageRef customImageTag : string)
    (doHTTPProbe : bool) (httpProbeCmds : list HTTPProbeCmd)
    (httpProbeRetryCount httpProbeRetryWait : Z) (httpProbePorts : list N)
    (doHTTPProbeFull doRmFileArtifacts : bool)
    (copyMetaArtifactsLocation : string) (doShowBuildLogs : bool)
    (overrides_Network : string) (continueAfter : ContinueAfter) : M unit :=
  _ ← call "version.CheckAsync";
  let cmdReport := new_report imageRef in
  _ ← call "dockerclient.New";
  _ ← Println "docker-slim[build]: state=started";
  _ ← (if String.eqb buildFromDockerfile "" then
         Printf ("docker-slim[build]: info=params target=" +:+ imageRef
                 +:+ " continue.mode=" +:+ Mode continueAfter +:+ nl)
       else
         Printf ("docker-slim[build]: info=params context=" +:+ imageRef
                 +:+ "/file=" +:+ buildFromDockerfile
                 +:+ " continue.mode=" +:+ Mode continueAfter +:+ nl));
  imageRef ← build_basic_image env buildFromDockerfile imageRef customImageTag
               doShowBuildLogs;
  _ ← (if doDebug then call "version.Print" else skip);
  _ ← call "confirmNetwork";
  _ ← (if negb (confirmNetwork_ok env) then
         _ ← Printf ("docker-slim[build]: info=param.error status=unknown.network value="
                     +:+ overrides_Network +:+ nl);
         _ ← Printf ("docker-slim[build]: state=exited version=" +:+ v_Current env +:+ nl);
         stop_with (os_Exit (-111))
       else skip);
  _ ← call "image.NewInspector";
  _ ← FailOn (image_NewInspector_err env);
  _ ← (if NoImage env then
         _ ← Println ("docker-slim[build]: target image not found -" +:+ " " +:+ imageRef);
         _ ← Println "docker-slim[build]: state=exited";
         stop_with EarlyReturn
       else skip);
  _ ← Println "docker-slim[build]: state=image.inspection.start";
  _ ← call "imageInspector.Inspect";
  _ ← FailOn (Inspect_err env);
  _ ← call "fsutil.PrepareImageStateDirs";
  _ ← Printf ("docker-slim[build]: info=image id=" +:+ ImageInfo_ID env
              +:+ " size.bytes=" +:+ itoa (ImageInfo_VirtualSize env)
              +:+ " size.human=" +:+ ImageInfo_VirtualSize_human env +:+ nl);
  _ ← call "imageInspector.ProcessCollectedData";
  _ ← FailOn (image_ProcessCollectedData_err env);
  _ ← match image_DockerfileInfo env with
      | Some info =>
          _ ← (if nonempty (ExeUser info) then
                 Printf ("docker-slim[build]: info=image.users exe='" +:+ ExeUser info
                         +:+ "' all='" +:+ Join (AllUsers info) +:+ "'" +:+ nl)
               else skip);
          _ ← (if bool_decide (0 < length (ImageStack info))%nat then
                 print_image_stack 0 (ImageStack info)
               else skip);
          if bool_decide (0 < length (ExposedPorts info))%nat then
            Printf ("docker-slim[build]: info=image.exposed_ports list='"
                    +:+ Join (ExposedPorts info) +:+ "'" +:+ nl)
          else skip
      | None => skip
      end;
  _ ← Println "docker-slim[build]: state=image.inspection.done";
  _ ← Println "docker-slim[build]: state=container.inspection.start";
  _ ← call "container.NewInspector";
  _ ← FailOn (container_NewInspector_err env);
  _ ← call "containerInspector.RunContainer";
  _ ← FailOn (RunContainer_err env);
  _ ← Printf ("docker-slim[build]: info=container name=" +:+ ContainerName env
              +:+ " id=" +:+ ContainerID env
              +:+ " target.port.list=[" +:+ ContainerPortList env
              +:+ "] target.port.info=[" +:+ ContainerPortsInfo env
              +:+ "] message='YOU CAN USE THESE PORTS TO INTERACT WITH THE CONTAINER'" +:+ nl);
  let doHTTPProbe :=
    if String.eqb "probe" (Mode continueAfter) then true else doHTTPProbe in
  _ ← (if doHTTPProbe then
         '(probe, err) ← lift_go (NewCustomProbe (order env) (containerInspector env)
                           httpProbeCmds httpProbeRetryCount httpProbeRetryWait
                           httpProbePorts doHTTPProbeFull true "docker-slim[build]:");
         _ ← FailOn err;
         if bool_decide (length (Ports probe) = 0%nat) then
           _ ← Println "docker-slim[build]: state=http.probe.error error='no exposed ports' message='expose your service port with --expose or disable HTTP probing with --http-probe=false if your containerized application doesnt expose any network services";
           _ ← call "containerInspector.FinishMonitoring";
           _ ← call "containerInspector.ShutdownContainer";
           _ ← Println "docker-slim[build]: state=exited";
           stop_with EarlyReturn
         else
           events (Start probe)
       else skip);
  _ ← (if String.eqb (Mode continueAfter) "enter" then
         _ ← Println "docker-slim[build]: info=prompt message='USER INPUT REQUIRED, PRESS <ENTER> WHEN YOU ARE DONE USING THE CONTAINER'";
         call "creader.ReadLine"
       else if String.eqb (Mode continueAfter) "signal" then
         _ ← Println "docker-slim[build]: info=prompt message='send SIGUSR1 when you are done using the container'";
         _ ← call "<-continueAfter.ContinueChan";
         Println "docker-slim[build]: info=event message='got SIGUSR1'"
       else if String.eqb (Mode continueAfter) "timeout" then
         _ ← Printf ("docker-slim[build]: info=prompt message='waiting for the target container ("
                     +:+ itoa (Timeout continueAfter) +:+ " seconds)'" +:+ nl);
         _ ← events [Sleep (wrap64 (time_Second * Timeout continueAfter))];
         Printf "docker-slim[build]: info=event message='done waiting for the target container'"
       else if String.eqb (Mode continueAfter) "probe" then
         _ ← Println "docker-slim[build]: info=prompt message='waiting for the HTTP probe to finish'";
         _ ← call "<-continueAfter.ContinueChan";
         Println "docker-slim[build]: info=event message='HTTP probe is done'"
       else
         stop_with (Fatal "unknown continue-after mode"));
  _ ← Println "docker-slim[build]: state=container.inspection.finishing";
  _ ← call "containerInspector.FinishMonitoring";
  _ ← call "containerInspector.ShutdownContainer";
  _ ← WarnOn (ShutdownContainer_err env);
  _ ← Println "docker-slim[build]: state=container.inspection.artifact.processing";
  _ ← call "containerInspector.HasCollectedData";
  _ ← (if negb (HasCollectedData env) then
         _ ← call "imageInspector.ShowFatImageDockerInstructions";
         _ ← Printf ("docker-slim[build]: info=results status='no data collected (no minified image generated). (version: "
                     +:+ v_Current env +:+ ")'" +:+ nl);
         _ ← Println "docker-slim[build]: state=exited";
         stop_with EarlyReturn
       else skip);
  _ ← call "containerInspector.ProcessCollectedData";
  _ ← FailOn (container_ProcessCollectedData_err env);
  let customImageTag :=
    if String.eqb customImageTag "" then SlimImageRepo env else customImageTag in
  _ ← Println "docker-slim[build]: state=container.inspection.done";
  _ ← Println "docker-slim[build]: state=building message='building minified image'";
  _ ← call "builder.NewImageBuilder";
  _ ← FailOn (NewImageBuilder_err env);
  _ ← call "builder.Build";
  let err := builder_Build_err env in
  _ ← (if doShowBuildLogs then
         _ ← Println "docker-slim[build]: build logs ====================";
         _ ← Println (builder_BuildLog env);
         Println "docker-slim[build]: end of build logs ============="
       else skip);
  _ ← FailOn err;
  _ ← Println "docker-slim[build]: state=completed";
  let cmdReport := set_State CmdStateCompleted cmdReport in
  _ ← call "image.NewInspector";
  _ ← FailOn (new_NewInspector_err env);
  _ ← (if new_NoImage env then
         _ ← Printf ("docker-slim[build]: info=results message='minified image not found - "
                     +:+ builder_RepoName env +:+ "'" +:+ nl);
         _ ← Println "docker-slim[build]: state=exited";
         stop_with EarlyReturn
       else skip);
  _ ← call "newImageInspector.Inspect";
  let err := new_Inspect_err env in
  _ ← WarnOn err;
  cmdReport ←
    match err with
    | None =>
        _ ← Printf ("docker-slim[build]: info=results status='MINIFIED BY "
                    +:+ MinifiedBy_text env +:+ "X ["
                    +:+ itoa (ImageInfo_VirtualSize env) +:+ " ("
                    +:+ ImageInfo_VirtualSize_human env +:+ ") => "
                    +:+ itoa (new_VirtualSize env) +:+ " ("
                    +:+ new_VirtualSize_human env +:+ ")]'" +:+ nl);
        mret cmdReport
    | Some e => mret (set_Error (Error e) (set_State CmdStateError cmdReport))
    end;
  let MinifiedImageSizeHuman :=
    match err with None => new_VirtualSize_human env | Some _ => "" end in
  let cmdReport :=
    {| State := State cmdReport; ReportError := ReportError cmdReport;
       ImageReference := ImageReference cmdReport;
       MinifiedImage := builder_RepoName env;
       MinifiedImageHasData := builder_HasData env;
       ArtifactLocation := artifactLocation env;
       ContainerReportName := DefaultContainerReportFileName env;
       SeccompProfileName := image_SeccompProfileName env;
       AppArmorProfileName := image_AppArmorProfileName env |} in
  _ ← Printf ("docker-slim[build]: info=results  image.name=" +:+ MinifiedImage cmdReport
              +:+ " image.size='" +:+ MinifiedImageSizeHuman
              +:+ "' data=" +:+ bool_text (MinifiedImageHasData cmdReport) +:+ nl);
  _ ← Printf ("docker-slim[build]: info=results  artifacts.location='"
              +:+ ArtifactLocation cmdReport +:+ "'" +:+ nl);
  _ ← Printf ("docker-slim[build]: info=results  artifacts.report="
              +:+ ContainerReportName cmdReport +:+ nl);
  _ ← Printf ("docker-slim[build]: info=results  artifacts.dockerfile.original=Dockerfile.fat" +:+ nl);
  _ ← Printf ("docker-slim[build]: info=results  artifacts.dockerfile.new=Dockerfile" +:+ nl);
  _ ← Printf ("docker-slim[build]: info=results  artifacts.seccomp="
              +:+ SeccompProfileName cmdReport +:+ nl);
  _ ← Printf ("docker-slim[build]: info=results  artifacts.apparmor="
              +:+ AppArmorProfileName cmdReport +:+ nl);
  _ ← (if nonempty (ArtifactLocation cmdReport) then call "ioutil.ReadFile" else skip);
  _ ← (if nonempty copyMetaArtifactsLocation then
         _ ← call "copyMetaArtifacts";
         if negb (copyMetaArtifacts_ok env) then
           Println "docker-slim[build]: info=artifacts message='could not copy meta artifacts'"
         else skip
       else skip);
  _ ← (if doRmFileArtifacts then
         _ ← call "fsutil.Remove";
         WarnOn (fsutil_Remove_err env)
       else skip);
  _ ← Println "docker-slim[build]: state=done";
  _ ← call "<-viChan";
  _ ← call "version.PrintCheckVersion";
  let cmdReport := set_State CmdStateDone cmdReport in
  events [ReportSave cmdReport].

(** [OnProfile]: the 'profile' command *)
Definition OnProfile (env : Env) (doDebug : bool) (imageRef : string)
    (doHTTPProbe : bool) (httpProbeCmds : list HTTPProbeCmd)
    (httpProbeRetryCount httpProbeRetryWait : Z) (httpProbePorts : list N)
    (doHTTPProbeFull : bool) (copyMetaArtifactsLocation : string)
    (overrides_Network : string) (continueAfter : ContinueAfter) : M unit :=
  _ ← call "version.CheckAsync";
  let cmdReport := new_report imageRef in
  _ ← Println "docker-slim[profile]: state=started";
  _ ← Printf ("docker-slim[profile]: info=params target=" +:+ imageRef +:+ nl);
  let doRmFileArtifacts := false in
  _ ← call "dockerclient.New";
  _ ← (if doDebug then call "version.Print" else skip);
  _ ← call "confirmNetwork";
  _ ← (if negb (confirmNetwork_ok env) then
         _ ← Printf ("docker-slim[profile]: info=param.error status=unknown.network value="
                     +:+ overrides_Network +:+ nl);
         _ ← Printf ("docker-slim[profile]: state=exited version=" +:+ v_Current env +:+ nl);
         stop_with (os_Exit (-111))
       else skip);
  _ ← call "image.NewInspector";
  _ ← FailOn (image_NewInspector_err env);
  _ ← (if NoImage env then
         _ ← Println ("docker-slim[profile]: target image not found -" +:+ " " +:+ imageRef);
         _ ← Println "docker-slim[profile]: state=exited";
         stop_with EarlyReturn
       else skip);
  _ ← Println "docker-slim[profile]: state=image.inspection.start";
  _ ← call "imageInspector.Inspect";
  _ ← FailOn (Inspect_err env);
  _ ← call "fsutil.PrepareImageStateDirs";
  _ ← Printf ("docker-slim[profile]: info=image id=" +:+ ImageInfo_ID env
              +:+ " size.bytes=" +:+ itoa (ImageInfo_VirtualSize env)
              +:+ " size.human=" +:+ ImageInfo_VirtualSize_human env +:+ nl);
  _ ← call "imageInspector.ProcessCollectedData";
  _ ← FailOn (image_ProcessCollectedData_err env);
  _ ← Println "docker-slim[profile]: state=image.inspection.done";
  _ ← Println "docker-slim[profile]: state=container.inspection.start";
  _ ← call "container.NewInspector";
  _ ← FailOn (container_NewInspector_err env);
  _ ← call "containerInspector.RunContainer";
  _ ← FailOn (RunContainer_err env);
  _ ← Printf ("docker-slim[build]: info=container name=" +:+ ContainerName env
              +:+ " id=" +:+ ContainerID env
              +:+ " target.port.list=[" +:+ ContainerPortList env
              +:+ "] target.port.info=[" +:+ ContainerPortsInfo env
              +:+ "] message='YOU CAN USE THESE PORTS TO INTERACT WITH THE CONTAINER'" +:+ nl);
  let doHTTPProbe :=
    if String.eqb "probe" (Mode continueAfter) then true else doHTTPProbe in
  _ ← (if doHTTPProbe then
         '(probe, err) ← lift_go (NewCustomProbe (order env) (containerInspector env)
                           httpProbeCmds httpProbeRetryCount httpProbeRetryWait
                           httpProbePorts doHTTPProbeFull true "docker-slim[profile]:");
         _ ← FailOn err;
         if bool_decide (length (Ports probe) = 0%nat) then
           _ ← Println "docker-slim[profile]: state=http.probe.error error='no exposed ports' message='expose your service port with --expose or disable HTTP probing with --http-probe=false if your containerized application doesnt expose any network services";
           _ ← call "containerInspector.FinishMonitoring";
           _ ← call "containerInspector.ShutdownContainer";
           _ ← Println "docker-slim[profile]: state=exited";
           stop_with EarlyReturn
         else
           events (Start probe)
       else skip);
  _ ← (if String.eqb (Mode continueAfter) "enter" then
         _ ← Println "docker-slim[profile]: info=prompt message='USER INPUT REQUIRED, PRESS <ENTER> WHEN YOU ARE DONE USING THE CONTAINER'";
         call "creader.ReadLine"
       else if String.eqb (Mode continueAfter) "signal" then
         _ ← Println "docker-slim[profile]: info=prompt message='send SIGUSR1 when you are done using the container'";
         _ ← call "<-continueAfter.ContinueChan";
         Println "docker-slim[profile]: info=event message='got SIGUSR1'"
       else if String.eqb (Mode continueAfter) "timeout" then
         _ ← Printf ("docker-slim[profile]: info=prompt message='waiting for the target container ("
                     +:+ itoa (Timeout continueAfter) +:+ " seconds)'" +:+ nl);
         _ ← events [Sleep (wrap64 (time_Second * Timeout continueAfter))];
         Printf "docker-slim[profile]: info=event message='done waiting for the target container'"
       else if String.eqb (Mode continueAfter) "probe" then
         _ ← Println "docker-slim[profile]: info=prompt message='waiting for the HTTP probe to finish'";
         _ ← call "<-continueAfter.ContinueChan";
         Println "docker-slim[profile]: info=event message='HTTP probe is done'"
       else
         stop_with (Fatal "unknown continue-after mode"));
  _ ← Println "docker-slim[profile]: state=container.inspection.finishing";
  _ ← call "containerInspector.FinishMonitoring";
  _ ← call "containerInspector.ShutdownContainer";
  _ ← WarnOn (ShutdownContainer_err env);
  _ ← Println "docker-slim[profile]: state=container.inspection.artifact.processing";
  _ ← call "containerInspector.HasCollectedData";
  _ ← (if negb (HasCollectedData env) then
         _ ← call "imageInspector.ShowFatImageDockerInstructions";
         _ ← Printf ("docker-slim[profile]: info=results status='no data collected (no minified image generated). (version: "
                     +:+ v_Current env +:+ ")'" +:+ nl);
         _ ← Println "docker-slim[profile]: state=exited";
         stop_with EarlyReturn
       else skip);
  _ ← call "containerInspector.ProcessCollectedData";
  _ ← FailOn (container_ProcessCollectedData_err env);
  _ ← Println "docker-slim[profile]: state=container.inspection.done";
  _ ← Println "docker-slim[profile]: state=completed";
  let cmdReport := set_State CmdStateCompleted cmdReport in
  _ ← (if nonempty copyMetaArtifactsLocation then
         _ ← call "copyMetaArtifacts";
         if negb (copyMetaArtifacts_ok env) then
           Println "docker-slim[profile]: info=artifacts message='could not copy meta artifacts'"
         else skip
       else skip);
  _ ← (if doRmFileArtifacts then
         _ ← call "fsutil.Remove";
         WarnOn (fsutil_Remove_err env)
       else skip);
  _ ← Println "docker-slim[profile]: state=done";
  _ ← call "<-viChan";
  _ ← call "version.PrintCheckVersion";
  let cmdReport := set_State CmdStateDone cmdReport in
  events [ReportSave cmdReport].

(** The text on standard output, and its lines. *)
Fixpoint stdout_text (t : list event) : string :=
  match t with
  | [] => ""
  | Stdout text :: rest => text +:+ stdout_text rest
  | _ :: rest => stdout_text rest
  end.

(** The last line ends with a newline; what follows it is not a line. *)
Definition stdout_lines (t : list event) : list string :=
  let parts := Split (Ascii.ascii_of_nat 10) (stdout_text t) in
  match reverse parts with
  | EmptyString :: rest => reverse rest
  | _ => parts
  end.

(** ** Reading the plan: definitions used to state the properties *)

(** The host port a container port is bound to: the first binding. *)
Definition host_of (insp : Inspector) (k : string) : option string :=
  match NetworkSettings_Ports insp !! k with
  | Some (b :: _) => Some (HostPort b)
  | _ => None
  end.

(** The available host ports: those of the bound container ports other
    than the two control ports. *)
Definition available (insp : Inspector) : gset string :=
  list_to_set
    (omap (λ e : string * list PortBinding,
             if is_control insp e.1 then None else HostPort <$> head e.2)
          (map_to_list (NetworkSettings_Ports insp))).

(** The host ports of the exposed ports, last declared first, entries
    without a protocol read as tcp, unbound entries skipped. *)
Definition exposed_hosts (insp : Inspector) (exposed : list string) : list string :=
  omap (λ e, host_of insp (normalize_port e)) (reverse exposed).

(** The host ports of the target ports that are bound, in the given order. *)
Definition target_hosts (insp : Inspector) (targets : list N) : list string :=
  omap (λ n, host_of insp (port_spec n)) targets.

(** No entry of the plan is the host port of a control port. *)
Definition plan_excludes_control (insp : Inspector) (plan : list string) : Prop :=
  ∀ h k, h ∈ plan → (k = CmdPort insp ∨ k = EvtPort insp) → host_of insp k ≠ Some h.

(** Distinct bound container ports have distinct host ports. *)
Definition host_ports_distinct (insp : Inspector) : Prop :=
  ∀ k1 k2 h, host_of insp k1 = Some h → host_of insp k2 = Some h → k1 = k2.

(** ** Reading a run of the worker *)

(** The header pairs of the well-formed header lines. *)
Definition header_pairs (hlines : list string) : list (string * string) :=
  omap (λ hline,
          match SplitN2 ":"%char hline with
          | Some (h0, h1) => Some (TrimSpace h0, TrimSpace h1)
          | None => None
          end) hlines.

Definition wants_auth (cmd : HTTPProbeCmd) : bool :=
  negb (String.eqb (Username cmd) "") || negb (String.eqb (Password cmd) "").

(** The request an attempt sends once [http.NewRequest] has built it. *)
Definition request_of (cmd : HTTPProbeCmd) (addr : string) : Request :=
  {| req_Method := Method cmd; req_URL := addr; req_Body := Body cmd;
     req_Header := header_pairs (Headers cmd);
     req_BasicAuth :=
       if wants_auth cmd then Some (Username cmd, Password cmd) else None |}.

Definition is_ok (r : DoResult) : bool :=
  match r with DoOk _ => true | DoErr _ _ => false end.

Definition has_response (r : DoResult) : bool :=
  match r with DoOk _ | DoErr (Some _) _ => true | DoErr None _ => false end.

(** The line of lines 218-225. *)
Definition call_line (p : CustomProbe) (cmd : HTTPProbeCmd) (addr : string)
    (i : Z) (r : DoResult) (t : string) : string :=
  PrintPrefix p +:+ " info=http.probe.call status="
    +:+ match r with DoOk res => itoa (StatusCode res) | DoErr _ _ => "error" end
    +:+ " method=" +:+ Method cmd +:+ " target=" +:+ addr
    +:+ " attempt=" +:+ itoa (i + 1) +:+ " "
    +:+ match r with DoOk _ => "" | DoErr _ err => "error='" +:+ Error err +:+ "'" end
    +:+ " time=" +:+ t +:+ nl.

(** What one attempt adds to the trace after the request is sent. *)
Definition after_call (p : CustomProbe) (cmd : HTTPProbeCmd) (addr : string)
    (i call : Z) (r : DoResult) (t : string) : list event :=
  [Seek0]
  ++ (if has_response r then [BodyDrain call] else [])
  ++ (if PrintState p then [Stdout (call_line p cmd addr i r t)] else [])
  ++ match r with DoOk _ => [] | DoErr _ err => [Sleep (backoff p err)] end.

(** Number of successful calls in a trace. *)
Fixpoint successes (t : list event) : nat :=
  match t with
  | [] => 0
  | HTTPCall _ true :: rest => S (successes rest)
  | _ :: rest => successes rest
  end.

Definition in_u64 (z : Z) : Prop := 0 ≤ z < 2 ^ 64.

(** [st'] extends [st] by the events [evs]; the success counter moved by
    the number of successful calls among them, modulo 2^64. *)
Definition step {World : Type} (st st' : @wstate World) (evs : list event) : Prop :=
  trace st' = trace st ++ evs ∧
  wrapU64 (okCount st') = wrapU64 (okCount st + Z.of_nat (successes evs)) ∧
  (in_u64 (okCount st) → in_u64 (okCount st')).

(** The same probe with another plan. *)
Definition with_ports (p : CustomProbe) (plan : list string) : CustomProbe :=
  {| PrintState := PrintState p; PrintPrefix := PrintPrefix p; Ports := plan;
     Cmds := Cmds p; RetryCount := RetryCount p; RetryWait := RetryWait p;
     TargetPorts := TargetPorts p; ProbeFull := ProbeFull p;
     ContainerInspector := ContainerInspector p |}.

(** Every response body that was read is closed before the next request
    is sent: [open] holds the calls whose body is still open. *)
Fixpoint closed_before_next_call (open : list Z) (t : list event) : bool :=
  match t with
  | [] => true
  | HTTPCall _ _ :: rest =>
      match open with
      | [] => closed_before_next_call open rest
      | _ :: _ => false
      end
  | BodyDrain call :: rest => closed_before_next_call (call :: open) rest
  | BodyClose call :: rest =>
      closed_before_next_call (filter (λ c, c ≠ call) open) rest
  | _ :: rest => closed_before_next_call open rest
  end.

Definition is_close (e : event) : Prop :=
  match e with BodyClose _ => True | _ => False end.

(** The state a computation of the worker ends in, returned or not. *)
Definition state_of {World A : Type} (r : @wres World A) : @wstate World :=
  match r with
  | WRet _ st => st
  | WPanic _ st => st
  end.

(** The three classes of failed attempts. *)
Inductive error_class := NotReady | WebError | OtherError.

Definition classify (err : error) : error_class :=
  match err with
  | url_Error io_EOF _ => NotReady
  | url_Error inner_other _ => WebError
  | plain_error _ => OtherError
  end.

(** ** Reading a run of a command *)

Definition is_save (e : event) : Prop :=
  match e with ReportSave _ => True | _ => False end.

Definition is_spawn (e : event) : Prop :=
  match e with GoProbeWorker _ => True | _ => False end.

(** No event of the trace satisfies [bad]. *)
Definition free_of (bad : event → Prop) (t : list event) : Prop :=
  Forall (λ e, ¬ bad e) t.

(** The report is written by a run exactly when the run reaches the end of
    the command; it is then the last thing the run does, and when the run
    was [clean] the state written is [CmdStateDone]. *)
Definition saves_at_end (clean : Prop) (c : M unit) : Prop :=
  match c.2 with
  | inr _ => ∃ pre r, c.1 = pre ++ [ReportSave r] ∧
                      (clean → State r = CmdStateDone) ∧
                      free_of is_save pre
  | inl _ => free_of is_save c.1
  end.

(** The custom tag gives a name to the basic image: at most one colon. *)
Definition fat_tag_ok (customImageTag : string) : Prop :=
  customImageTag = "" ∨ (length (Split ":"%char customImageTag) ≤ 2)%nat.

(** Every collaborator succeeds up to the start of the container. *)
Definition container_started (env : Env) : Prop :=
  confirmNetwork_ok env = true ∧ image_NewInspector_err env = None ∧
  NoImage env = false ∧ Inspect_err env = None ∧
  image_ProcessCollectedData_err env = None ∧
  container_NewInspector_err env = None ∧ RunContainer_err env = None.

(** The basic image, when one is asked for, is built. *)
Definition basic_image_built (env : Env) (buildFromDockerfile customImageTag : string)
    : Prop :=
  buildFromDockerfile = "" ∨
  (fat_tag_ok customImageTag ∧ NewBasicImageBuilder_err env = None ∧
   fatBuilder_Build_err env = None).

(** The end of a run that finds no port to probe. *)
Definition no_ports_ending (pfx : string) : list event :=
  [Stdout (pfx +:+ " state=http.probe.error error='no exposed ports' message='expose your service port with --expose or disable HTTP probing with --http-probe=false if your containerized application doesnt expose any network services" +:+ nl);
   Call "containerInspector.FinishMonitoring";
   Call "containerInspector.ShutdownContainer";
   Stdout (pfx +:+ " state=exited" +:+ nl)].

(** A step of a command none of whose events satisfies [bad]. *)
Definition quiet {A} (bad : event → Prop) (c : M A) : Prop := free_of bad c.1.

(** A run that gives up probing: it ends with [no_ports_ending], by a
    plain [return], and no probe worker was started before. *)
Definition gives_up_probing (pfx : string) (c : M unit) : Prop :=
  c.2 = inl EarlyReturn ∧
  ∃ pre, c.1 = pre ++ no_ports_ending pfx ∧ free_of is_spawn pre.

(** A text on standard output that starts neither with the prefix of the
    profile command nor as the [info=container] text of the build command. *)
Definition wrong_profile_prefix (e : event) : Prop :=
  match e with
  | Stdout text =>
      String.prefix "docker-slim[profile]:" text = false ∧
      String.prefix "docker-slim[build]: info=container" text = false
  | _ => False
  end.

(** ** Concrete inputs *)

Definition bind (hostPort : string) : PortBinding :=
  {| HostIP := "0.0.0.0"; HostPort := hostPort |}.

Definition dockerfile (exposed : list string) : DockerfileInfoT :=
  {| ExeUser := ""; AllUsers := []; ImageStack := []; ExposedPorts := exposed |}.

(** A container with one service port and the two control ports of the
    inspector published. *)
Definition web_ports : gmap string (list PortBinding) :=
  <["80/tcp" := [bind "32780"]]>
    (<["65501/tcp" := [bind "32790"]]>
       (<["65502/tcp" := [bind "32791"]]> ∅)).

Definition web_insp : Inspector :=
  {| CmdPort := "65501/tcp"; EvtPort := "65502/tcp";
     NetworkSettings_Ports := web_ports;
     DockerfileInfo := Some (dockerfile ["80"]);
     DockerHostIP := "127.0.0.1" |}.

(** Three exposed ports, all bound, and one more bound port. *)
Definition three_ports : gmap string (list PortBinding) :=
  <["80/tcp" := [bind "32780"]]>
    (<["443/tcp" := [bind "32781"]]>
       (<["8080/tcp" := [bind "32782"]]>
          (<["9000/tcp" := [bind "32783"]]>
             (<["65501/tcp" := [bind "32790"]]>
                (<["65502/tcp" := [bind "32791"]]> ∅))))).

Definition three_insp : Inspector :=
  {| CmdPort := "65501/tcp"; EvtPort := "65502/tcp";
     NetworkSettings_Ports := three_ports;
     DockerfileInfo := Some (dockerfile ["80"; "443/tcp"; "8080"]);
     DockerHostIP := "127.0.0.1" |}.

(** A port that is exposed but not published: Docker reports it with no
    binding. *)
Definition unpublished_ports : gmap string (list PortBinding) :=
  <["80/tcp" := []]>
    (<["65501/tcp" := [bind "32790"]]>
       (<["65502/tcp" := [bind "32791"]]> ∅)).

Definition unpublished_insp : Inspector :=
  {| CmdPort := "65501/tcp"; EvtPort := "65502/tcp";
     NetworkSettings_Ports := unpublished_ports;
     DockerfileInfo := Some (dockerfile ["80"]);
     DockerHostIP := "127.0.0.1" |}.

Definition get_root : HTTPProbeCmd :=
  {| Protocol := ""; Method := "GET"; Resource := "/"; Headers := [];
     Body := ""; Username := ""; Password := "" |}.

Definition probe_of (insp : Inspector) (targets : list N) (plan : list string)
    : CustomProbe :=
  {| PrintState := true; PrintPrefix := "docker-slim[build]:"; Ports := plan;
     Cmds := [get_root]; RetryCount := 0; RetryWait := 0;
     TargetPorts := targets; ProbeFull := false; ContainerInspector := insp |}.

(** A network on which every request is answered with status 200. *)
Definition net_200 : Network unit :=
  {| http_NewRequest_ok := λ _ _, true;
     httpClient_Do := λ w _, (DoOk {| StatusCode := 200 |}, w);
     time_Sleep := λ _ w, w;
     time_Now := λ _, "2017-01-01T00:00:00Z" |}.

(** A run of a command in which every collaborator succeeds. *)
Definition demo_env (noImage hasData : bool)
    (ports : gmap string (list PortBinding)) : Env :=
  {| order := sorted_order;
     v_Current := "linux|Transformer|1.22";
     pid_and_time := "4242.20170101000000";
     NewBasicImageBuilder_err := None;
     fatBuilder_Build_err := None;
     fatBuilder_BuildLog := "";
     confirmNetwork_ok := true;
     image_NewInspector_err := None;
     NoImage := noImage;
     Inspect_err := None;
     ImageInfo_ID := "sha256:0123";
     ImageInfo_VirtualSize := 125000000;
     ImageInfo_VirtualSize_human := "125 MB";
     artifactLocation := "/tmp/docker-slim-state/images/0123/artifacts";
     image_ProcessCollectedData_err := None;
     image_DockerfileInfo := Some (dockerfile ["80"]);
     SlimImageRepo := "my/app.slim";
     image_SeccompProfileName := "my-app-seccomp.json";
     image_AppArmorProfileName := "my-app-apparmor-profile";
     container_NewInspector_err := None;
     RunContainer_err := None;
     ContainerName := "dockerslimk_4242_20170101000000";
     ContainerID := "8f1e";
     ContainerPortList := "32780";
     ContainerPortsInfo := "80/tcp => 0.0.0.0:32780";
     container_CmdPort := "65501/tcp";
     container_EvtPort := "65502/tcp";
     container_Ports := ports;
     container_DockerHostIP := "127.0.0.1";
     ShutdownContainer_err := None;
     HasCollectedData := hasData;
     container_ProcessCollectedData_err := None;
     NewImageBuilder_err := None;
     builder_HasData := true;
     builder_Build_err := None;
     builder_BuildLog := "";
     builder_RepoName := "my/app.slim";
     new_NewInspector_err := None;
     new_NoImage := false;
     new_Inspect_err := None;
     new_VirtualSize := 5000000;
     new_VirtualSize_human := "5.0 MB";
     MinifiedBy_text := "25.00";
     copyMetaArtifacts_ok := true;
     fsutil_Remove_err := None;
     DefaultContainerReportFileName := "creport.json" |}.

(** Only the control ports of the inspector are published. *)
Definition control_only_ports : gmap string (list PortBinding) :=
  <["65501/tcp" := [bind "32790"]]> (<["65502/tcp" := [bind "32791"]]> ∅).

Definition after_enter : ContinueAfter := {| Mode := "enter"; Timeout := 0 |}.
Definition after_probe : ContinueAfter := {| Mode := "probe"; Timeout := 0 |}.

(** A network on which every request fails with a reset connection. *)
Definition net_reset : Network unit :=
  {| http_NewRequest_ok := λ _ _, true;
     httpClient_Do := λ w _,
       (DoErr None (url_Error inner_other "read: connection reset by peer"), w);
     time_Sleep := λ _ w, w;
     time_Now := λ _, "2017-01-01T00:00:00Z" |}.

(** A network on which no request can be built. *)
Definition net_unbuildable : Network unit :=
  {| http_NewRequest_ok := λ _ _, false;
     httpClient_Do := λ w _, (DoOk {| StatusCode := 200 |}, w);
     time_Sleep := λ _ w, w;
     time_Now := λ _, "2017-01-01T00:00:00Z" |}.

(** A command whose method is not an HTTP method. *)
Definition bad_method : HTTPProbeCmd :=
  {| Protocol := "http"; Method := "GE T"; Resource := "/"; Headers := [];
     Body := ""; Username := ""; Password := "" |}.

Definition retry_wait_probe (retryWait : Z) : CustomProbe :=
  {| PrintState := true; PrintPrefix := "docker-slim[build]:"; Ports := ["32780"];
     Cmds := [get_root]; RetryCount := 0; RetryWait := retryWait;
     TargetPorts := []; ProbeFull := false; ContainerInspector := web_insp |}.

(** The control port bound to the host port of the service, on another
    address of the host. *)
Definition shared_host_port_insp : Inspector :=
  {| CmdPort := "65501/tcp"; EvtPort := "65502/tcp";
     NetworkSettings_Ports :=
       <["80/tcp" := [bind "8080"]]>
         (<["65501/tcp" := [{| HostIP := "127.0.0.1"; HostPort := "8080" |}]]>
            (<["65502/tcp" := [bind "32791"]]> ∅));
     DockerfileInfo := Some (dockerfile ["80"]);
     DockerHostIP := "127.0.0.1" |}.

(** EXPOSE 80 and EXPOSE 443, bound to 32780 and 32781. *)
Definition two_exposed_insp : Inspector :=
  {| CmdPort := "65501/tcp"; EvtPort := "65502/tcp";
     NetworkSettings_Ports :=
       <["80/tcp" := [bind "32780"]]>
         (<["443/tcp" := [bind "32781"]]>
            (<["65501/tcp" := [bind "32790"]]>
               (<["65502/tcp" := [bind "32791"]]> ∅)));
     DockerfileInfo := Some (dockerfile ["80"; "443"]);
     DockerHostIP := "127.0.0.1" |}.

(** [POST /] with a JSON body and one header, over http only. *)
Definition post_json : HTTPProbeCmd :=
  {| Protocol := "http"; Method := "POST"; Resource := "/";
     Headers := ["Content-Type: application/json"; "X-No-Colon"];
     Body := "{'x':1}"; Username := ""; Password := "" |}.

Definition post_probe : CustomProbe :=
  {| PrintState := true; PrintPrefix := "docker-slim[build]:"; Ports := ["32999"];
     Cmds := [post_json]; RetryCount := 3; RetryWait := 0;
     TargetPorts := [8080%N]; ProbeFull := false; ContainerInspector := web_insp |}.

Definition is_Sleep (e : event) : bool :=
  match e with Sleep _ => true | _ => false end.

Definition is_HTTPCall (e : event) : bool :=
  match e with HTTPCall _ _ => true | _ => false end.

(** * Properties of the port planner *)

Section PlannerFacts.
Context (order : MapOrder) (insp : Inspector).

Lemma host_of_Some k h :
  host_of insp k = Some h ↔
  ∃ b bs, NetworkSettings_Ports insp !! k = Some (b :: bs) ∧ HostPort b = h.
Proof.
  unfold host_of. destruct (NetworkSettings_Ports insp !! k) as [[|b bs]|]; split.
  all: try (intros; discriminate).
  all: try (intros (b' & bs' & Hk & _); discriminate).
  - intros [= <-]. eauto.
  - intros (b' & bs' & [= <- <-] & <-). reflexivity.
Qed.

Lemma elem_of_available h :
  h ∈ available insp ↔
  ∃ k, is_control insp k = false ∧ host_of insp k = Some h.
Proof.
  unfold available. rewrite elem_of_list_to_set, list_elem_of_omap. split.
  - intros ([k bs] & Hin & Hf). apply elem_of_map_to_list in Hin. simpl in Hf.
    exists k. destruct (is_control insp k); [discriminate|]. split; [done|].
    unfold host_of. rewrite Hin. destruct bs; simpl in Hf; congruence.
  - intros (k & Hc & Hh). apply host_of_Some in Hh as (b & bs & Hk & <-).
    exists (k, b :: bs). split; [by apply elem_of_map_to_list|].
    simpl. by rewrite Hc.
Qed.

(** The first loop computes [available], or panics on a non-control
    entry without bindings, whatever the order of the entries. *)
Lemma availablePorts_loop_Ret entries acc s :
  availablePorts_loop insp entries acc = Ret s →
  (∀ k, (k, []) ∈ entries → is_control insp k = true) ∧
  s = list_to_set
        (omap (λ e : string * list PortBinding,
                 if is_control insp e.1 then None else HostPort <$> head e.2)
              entries) ∪ acc.
Proof.
  revert acc. induction entries as [|[k bs] entries IH]; intros acc; simpl.
  - intros [= <-]. split; [|by rewrite (left_id_L ∅ (∪))].
    intros k Hk. by apply elem_of_nil in Hk.
  - destruct (is_control insp k) eqn:Hc.
    + intros H. destruct (IH _ H) as [Hall ->]. split; [|done].
      intros k' Hk'. apply elem_of_cons in Hk' as [[= -> _]|Hk']; auto.
    + destruct bs as [|b bs]; [discriminate|]. intros H.
      destruct (IH _ H) as [Hall ->]. split.
      * intros k' Hk'. apply elem_of_cons in Hk' as [[=]|Hk']; auto.
      * simpl. by rewrite (assoc_L (∪)), (comm_L (∪) _ {[HostPort b]}).
Qed.

Lemma availablePorts_loop_Panics entries acc e :
  availablePorts_loop insp entries acc = Panics e →
  e = IndexOutOfRange ∧ ∃ k, (k, []) ∈ entries ∧ is_control insp k = false.
Proof.
  revert acc. induction entries as [|[k bs] entries IH]; intros acc; simpl.
  - discriminate.
  - destruct (is_control insp k) eqn:Hc.
    + intros H. destruct (IH _ H) as [-> (k' & Hk' & Hc')]. split; [done|].
      exists k'. split; [by apply list_elem_of_further|done].
    + destruct bs as [|b bs].
      * intros [= <-]. split; [done|]. exists k. split; [apply list_elem_of_here|done].
      * intros H. destruct (IH _ H) as [-> (k' & Hk' & Hc')]. split; [done|].
        exists k'. split; [by apply list_elem_of_further|done].
Qed.

Lemma available_range s :
  availablePorts_loop insp (range_ports order (NetworkSettings_Ports insp)) ∅ = Ret s →
  s = available insp.
Proof.
  intros H. apply availablePorts_loop_Ret in H as [_ ->].
  unfold available. apply set_eq. intros h.
  rewrite elem_of_union, !elem_of_list_to_set, !list_elem_of_omap.
  setoid_rewrite (range_ports_perm order (NetworkSettings_Ports insp)).
  rewrite elem_of_empty. tauto.
Qed.

Lemma range_ports_lookup k bs :
  (k, bs) ∈ range_ports order (NetworkSettings_Ports insp) ↔
  NetworkSettings_Ports insp !! k = Some bs.
Proof. rewrite (range_ports_perm order). apply elem_of_map_to_list. Qed.

(** The loop over the target ports. *)
Lemma targetPorts_loop_Ret targets acc ports :
  targetPorts_loop insp targets acc = Ret ports →
  (∀ n, n ∈ targets → NetworkSettings_Ports insp !! port_spec n ≠ Some []) ∧
  ports = acc ++ target_hosts insp targets.
Proof.
  revert acc. induction targets as [|n targets IH]; intros acc.
  - intros [= <-]. split; [|by rewrite app_nil_r].
    intros n Hn. by apply elem_of_nil in Hn.
  - assert (Hh : target_hosts insp (n :: targets) =
                 from_option (λ h, [h]) [] (host_of insp (port_spec n))
                 ++ target_hosts insp targets).
    { unfold target_hosts. simpl. by destruct (host_of insp (port_spec n)). }
    rewrite Hh. clear Hh. unfold host_of at 1. cbn [targetPorts_loop].
    destruct (NetworkSettings_Ports insp !! port_spec n) as [[|b bs]|] eqn:Hn.
    + discriminate.
    + intros H. destruct (IH _ H) as [Hall ->]. split.
      * intros n' Hn'. apply elem_of_cons in Hn' as [->|Hn']; [congruence|auto].
      * simpl. by rewrite <- app_assoc.
    + intros H. destruct (IH _ H) as [Hall ->]. split; [|done].
      intros n' Hn'. apply elem_of_cons in Hn' as [->|Hn']; [congruence|auto].
Qed.

Lemma targetPorts_loop_Panics targets acc e :
  targetPorts_loop insp targets acc = Panics e →
  e = IndexOutOfRange ∧
  ∃ n, n ∈ targets ∧ NetworkSettings_Ports insp !! port_spec n = Some [].
Proof.
  revert acc. induction targets as [|n targets IH]; intros acc; simpl.
  - discriminate.
  - destruct (NetworkSettings_Ports insp !! port_spec n) as [[|b bs]|] eqn:Hn.
    + intros [= <-]. split; [done|]. exists n. split; [apply list_elem_of_here|done].
    + intros H. destruct (IH _ H) as [-> (n' & Hn' & Hb)]. split; [done|].
      exists n'. split; [by apply list_elem_of_further|done].
    + intros H. destruct (IH _ H) as [-> (n' & Hn' & Hb)]. split; [done|].
      exists n'. split; [by apply list_elem_of_further|done].
Qed.

(** The loop over the exposed ports. *)
Lemma exposedPorts_loop_Ret exposed_rev acc avail ports avail' :
  exposedPorts_loop insp exposed_rev acc avail = Ret (ports, avail') →
  (∀ e, e ∈ exposed_rev → NetworkSettings_Ports insp !! normalize_port e ≠ Some []) ∧
  ports = acc ++ omap (λ e, host_of insp (normalize_port e)) exposed_rev ∧
  avail' = avail ∖ list_to_set (omap (λ e, host_of insp (normalize_port e)) exposed_rev).
Proof.
  revert acc avail. induction exposed_rev as [|x l IH]; intros acc avail.
  - intros [= <- <-]. simpl.
    split; [|split; [by rewrite app_nil_r|by rewrite difference_empty_L]].
    intros e He. by apply elem_of_nil in He.
  - assert (Hh : omap (λ e, host_of insp (normalize_port e)) (x :: l) =
                 from_option (λ h, [h]) [] (host_of insp (normalize_port x))
                 ++ omap (λ e, host_of insp (normalize_port e)) l).
    { simpl. by destruct (host_of insp (normalize_port x)). }
    rewrite Hh. clear Hh. unfold host_of at 1 3. cbn [exposedPorts_loop].
    destruct (NetworkSettings_Ports insp !! normalize_port x) as [[|b bs]|] eqn:Hx.
    + discriminate.
    + intros H. destruct (IH _ _ H) as (Hall & -> & ->). split; [|split].
      * intros e He. apply elem_of_cons in He as [->|He]; [congruence|auto].
      * simpl. by rewrite <- app_assoc.
      * simpl. apply set_eq. intros h. case_bool_decide.
        -- rewrite !elem_of_difference, elem_of_union, elem_of_singleton. tauto.
        -- rewrite !elem_of_difference, elem_of_union, elem_of_singleton.
           split; [|tauto].
           intros [Hh Hn]. split; [done|]. intros [->|?]; tauto.
    + intros H. destruct (IH _ _ H) as (Hall & -> & ->). split; [|split; done].
      intros e He. apply elem_of_cons in He as [->|He]; [congruence|auto].
Qed.

Lemma exposedPorts_loop_Panics exposed_rev acc avail e :
  exposedPorts_loop insp exposed_rev acc avail = Panics e →
  e = IndexOutOfRange ∧
  ∃ x, x ∈ exposed_rev ∧ NetworkSettings_Ports insp !! normalize_port x = Some [].
Proof.
  revert acc avail. induction exposed_rev as [|x l IH]; intros acc avail; simpl.
  - discriminate.
  - destruct (NetworkSettings_Ports insp !! normalize_port x) as [[|b bs]|] eqn:Hx.
    + intros [= <-]. split; [done|]. exists x. split; [apply list_elem_of_here|done].
    + intros H. destruct (IH _ _ H) as [-> (x' & Hx' & Hb)]. split; [done|].
      exists x'. split; [by apply list_elem_of_further|done].
    + intros H. destruct (IH _ _ H) as [-> (x' & Hx' & Hb)]. split; [done|].
      exists x'. split; [by apply list_elem_of_further|done].
Qed.

End PlannerFacts.

Lemma length_pos_bool {A} (l : list A) :
  bool_decide (0 < length l)%nat = bool_decide (l ≠ []).
Proof. apply bool_decide_ext. destruct l; simpl; split; intros; (lia || done). Qed.

Section PlannerResult.
Context (order : MapOrder) (insp : Inspector).
Context (cmds : list HTTPProbeCmd) (retryCount retryWait : Z)
        (targetPorts : list N) (probeFull printState : bool)
        (printPrefix : string).

(** What a returned probe looks like. *)
Lemma NewCustomProbe_Ret probe err :
  NewCustomProbe order insp cmds retryCount retryWait targetPorts probeFull
    printState printPrefix = Ret (probe, err) →
  err = None ∧
  (∀ k, NetworkSettings_Ports insp !! k = Some [] → is_control insp k = true) ∧
  ((targetPorts ≠ [] ∧ Ports probe = target_hosts insp targetPorts ∧
    ∀ n, n ∈ targetPorts → NetworkSettings_Ports insp !! port_spec n ≠ Some [])
   ∨
   (targetPorts = [] ∧ ∃ info rest,
      DockerfileInfo insp = Some info ∧
      Ports probe = exposed_hosts insp (ExposedPorts info) ++ rest ∧
      rest ≡ₚ elements (available insp ∖
                        list_to_set (exposed_hosts insp (ExposedPorts info))) ∧
      ∀ e, e ∈ ExposedPorts info →
           NetworkSettings_Ports insp !! normalize_port e ≠ Some [])).
Proof.
  unfold NewCustomProbe.
  destruct (availablePorts_loop insp _ ∅) as [s|e] eqn:Ha; simpl; [|discriminate].
  pose proof (available_range order insp s Ha) as ->.
  apply availablePorts_loop_Ret in Ha as [Hctl _].
  assert (Hc : ∀ k, NetworkSettings_Ports insp !! k = Some [] → is_control insp k = true).
  { intros k Hk. apply Hctl. by eapply range_ports_lookup. }
  rewrite length_pos_bool. case_bool_decide as Ht.
  - destruct (targetPorts_loop insp targetPorts []) as [ports|e] eqn:Hl; simpl;
      [|discriminate].
    intros [= <- <-]. apply targetPorts_loop_Ret in Hl as [Hall ->].
    split; [done|]. split; [done|]. left. done.
  - assert (targetPorts = []) as Hnil by (destruct targetPorts; [done|by destruct Ht]).
    destruct (DockerfileInfo insp) as [info|]; [|discriminate].
    destruct (exposedPorts_loop insp _ [] (available insp)) as [[ports av]|e] eqn:Hl;
      simpl; [|discriminate].
    intros [= <- <-]. apply exposedPorts_loop_Ret in Hl as (Hall & -> & ->).
    split; [done|]. split; [done|]. right. split; [done|].
    exists info, (range_set order (available insp ∖
                    list_to_set (exposed_hosts insp (ExposedPorts info)))).
    split; [done|]. split; [done|]. split; [apply range_set_perm|].
    intros e He. apply Hall. by apply elem_of_reverse.
Qed.

(** How the constructor can panic. *)
Lemma NewCustomProbe_Panics e :
  NewCustomProbe order insp cmds retryCount retryWait targetPorts probeFull
    printState printPrefix = Panics e →
  (e = IndexOutOfRange ∧
   ∃ k, NetworkSettings_Ports insp !! k = Some [] ∧
        (is_control insp k = false
         ∨ (targetPorts ≠ [] ∧ ∃ n, n ∈ targetPorts ∧ k = port_spec n)
         ∨ (targetPorts = [] ∧ ∃ info x, DockerfileInfo insp = Some info ∧
              x ∈ ExposedPorts info ∧ k = normalize_port x)))
  ∨ (e = NilDereference ∧ targetPorts = [] ∧ DockerfileInfo insp = None ∧
     ∀ k, NetworkSettings_Ports insp !! k = Some [] → is_control insp k = true).
Proof.
  unfold NewCustomProbe.
  destruct (availablePorts_loop insp _ ∅) as [s|e'] eqn:Ha; simpl.
  - apply availablePorts_loop_Ret in Ha as [Hctl _].
    assert (Hc : ∀ k, NetworkSettings_Ports insp !! k = Some [] →
                      is_control insp k = true).
    { intros k Hk. apply Hctl. by eapply range_ports_lookup. }
    rewrite length_pos_bool. case_bool_decide as Ht.
    + destruct (targetPorts_loop insp targetPorts []) as [ports|e'] eqn:Hl; simpl;
        [discriminate|].
      intros [= <-]. apply targetPorts_loop_Panics in Hl as [-> (n & Hn & Hb)].
      left. split; [done|]. exists (port_spec n). split; [done|].
      right. left. eauto.
    + assert (targetPorts = []) as Hnil by (destruct targetPorts; [done|by destruct Ht]).
      destruct (DockerfileInfo insp) as [info|]; [|intros [= <-]; by right].
      destruct (exposedPorts_loop insp _ [] s) as [[ports av]|e'] eqn:Hl;
        simpl; [discriminate|].
      intros [= <-]. apply exposedPorts_loop_Panics in Hl as [-> (x & Hx & Hb)].
      left. split; [done|]. exists (normalize_port x). split; [done|].
      right. right. split; [done|]. exists info, x.
      split; [done|]. split; [by apply elem_of_reverse|done].
  - intros [= <-]. apply availablePorts_loop_Panics in Ha as [-> (k & Hk & Hc)].
    left. split; [done|]. exists k. split; [by eapply range_ports_lookup|by left].
Qed.

(** With a binding for every bound port (and image metadata at hand when
    it is needed) the constructor returns. *)
Lemma NewCustomProbe_total :
  (∀ k, NetworkSettings_Ports insp !! k ≠ Some []) →
  (targetPorts = [] → DockerfileInfo insp ≠ None) →
  ∃ probe, NewCustomProbe order insp cmds retryCount retryWait targetPorts probeFull
    printState printPrefix = Ret (probe, None).
Proof.
  intros Hb Hd.
  destruct (NewCustomProbe order insp cmds retryCount retryWait targetPorts probeFull
    printState printPrefix)
    as [[probe err]|e] eqn:Hr.
  - destruct (NewCustomProbe_Ret _ _ Hr) as [-> _]. by exists probe.
  - destruct (NewCustomProbe_Panics _ Hr) as [[_ (k & Hk & _)]|(_ & Ht & Hn & _)].
    + by destruct (Hb k).
    + by destruct (Hd Ht).
Qed.

(** Exactly when the constructor returns: every entry without a binding is
    a control port that is not named by the target ports or, without
    target ports, by the exposed ports; and without target ports the
    image metadata is at hand. *)
Lemma NewCustomProbe_returns_iff :
  (∃ probe err,
     NewCustomProbe order insp cmds retryCount retryWait targetPorts probeFull
       printState printPrefix = Ret (probe, err)) ↔
  (∀ k, NetworkSettings_Ports insp !! k = Some [] →
        is_control insp k = true ∧
        (∀ n, n ∈ targetPorts → k ≠ port_spec n) ∧
        (targetPorts = [] → ∀ info x, DockerfileInfo insp = Some info →
           x ∈ ExposedPorts info → k ≠ normalize_port x)) ∧
  (targetPorts = [] → DockerfileInfo insp ≠ None).
Proof.
  split.
  - intros (probe & err & Hret).
    apply NewCustomProbe_Ret in Hret as (_ & Hctl & Hcases). split.
    + intros k Hk. split; [by apply Hctl|]. split.
      * intros n Hn ->.
        destruct Hcases as [(_ & _ & Hall)|(Hnil & _)]; [by apply (Hall n)|].
        rewrite Hnil in Hn. by apply elem_of_nil in Hn.
      * intros Hnil info x Hinfo Hx ->.
        destruct Hcases as [(Hne & _)|(_ & info' & rest & Hinfo' & _ & _ & Hall)];
          [done|].
        rewrite Hinfo in Hinfo'. injection Hinfo' as <-. by apply (Hall x).
    + intros Hnil Hnone.
      destruct Hcases as [(Hne & _)|(_ & info & rest & Hinfo & _)]; [done|].
      by rewrite Hnone in Hinfo.
  - intros [Hall Hinfo].
    destruct (NewCustomProbe order insp cmds retryCount retryWait targetPorts
                probeFull printState printPrefix) as [[probe err]|e] eqn:Hr;
      [by eauto|].
    exfalso.
    destruct (NewCustomProbe_Panics _ Hr)
      as [[_ (k & Hk & Hcase)]|(_ & Hnil & Hnone & _)]; [|by apply Hinfo].
    destruct (Hall k Hk) as (Hc & Ht & He).
    destruct Hcase as [Hf|[(_ & n & Hn & ->)|(Hnil & info & x & Hi & Hx & ->)]].
    + by rewrite Hc in Hf.
    + by apply (Ht n).
    + by apply (He Hnil info x).
Qed.

End PlannerResult.

(** ** The claims about the port plan *)

(** C1, as stated, does not hold: with [target_ports = [65501]] and the
    command port [65501/tcp] published on host port 32790, the plan is
    [["32790"]], the host port of a control port. *)
Lemma control_port_in_plan :
  ¬ (∀ order insp cmds retryCount retryWait targetPorts probeFull printState
       printPrefix probe err,
       NewCustomProbe order insp cmds retryCount retryWait targetPorts probeFull
         printState printPrefix = Ret (probe, err) →
       plan_excludes_control insp (Ports probe)).
Proof.
  intros H.
  assert (E : NewCustomProbe sorted_order web_insp [get_root] 0 0 [65501%N] false
                true "docker-slim[build]:"
              = Ret (probe_of web_insp [65501%N] ["32790"], None))
    by (vm_compute; reflexivity).
  apply (H _ _ _ _ _ _ _ _ _ _ _ E "32790" "65501/tcp").
  - apply list_elem_of_here.
  - by left.
  - vm_compute. reflexivity.
Qed.

(** The same happens without target ports when the image itself declares
    a control port as exposed. *)
Lemma exposed_control_port_is_planned :
  ∃ probe,
    NewCustomProbe sorted_order
      {| CmdPort := "65501/tcp"; EvtPort := "65502/tcp";
         NetworkSettings_Ports := web_ports;
         DockerfileInfo := Some (dockerfile ["65501"]);
         DockerHostIP := "127.0.0.1" |}
      [get_root] 0 0 [] false true "docker-slim[build]:" = Ret (probe, None)
    ∧ Ports probe = ["32790"; "32780"].
Proof. eexists. split; vm_compute; reflexivity. Qed.

(** C1 (amended): when neither control port is named by the target ports
    (as [n/tcp]) nor, without target ports, by the exposed ports of the
    image, every host port of the plan is the first host binding of a bound
    container port other than the two control ports; and if distinct
    container ports have distinct host ports, no entry of the plan is the
    host port of a control port. *)
Theorem plan_avoids_unnamed_control_ports
    order insp cmds retryCount retryWait targetPorts probeFull printState
    printPrefix probe err :
  (∀ n, n ∈ targetPorts → is_control insp (port_spec n) = false) →
  (targetPorts = [] → ∀ info x, DockerfileInfo insp = Some info →
     x ∈ ExposedPorts info → is_control insp (normalize_port x) = false) →
  NewCustomProbe order insp cmds retryCount retryWait targetPorts probeFull
    printState printPrefix = Ret (probe, err) →
  (∀ h, h ∈ Ports probe →
        ∃ k, is_control insp k = false ∧ host_of insp k = Some h) ∧
  (host_ports_distinct insp → plan_excludes_control insp (Ports probe)).
Proof.
  intros Htargets Hexposed Hret.
  assert (Hplan : ∀ h, h ∈ Ports probe →
            ∃ k, is_control insp k = false ∧ host_of insp k = Some h).
  { apply NewCustomProbe_Ret in Hret
      as (_ & _ & [(Hne & -> & _)|(Hnil & info & rest & Hinfo & -> & Hperm & _)]).
    - intros h Hh. apply list_elem_of_omap in Hh as (n & Hn & Hh).
      exists (port_spec n). split; [by apply Htargets|done].
    - intros h Hh. apply elem_of_app in Hh as [Hh|Hh].
      + apply list_elem_of_omap in Hh as (x & Hx & Hh).
        rewrite elem_of_reverse in Hx.
        exists (normalize_port x). split; [exact (Hexposed Hnil info x Hinfo Hx)|done].
      + rewrite Hperm in Hh. apply elem_of_elements, elem_of_difference in Hh as [Hh _].
        by apply elem_of_available. }
  split; [done|].
  intros Hdistinct h k Hh Hk Hhost.
  destruct (Hplan h Hh) as (k' & Hc & Hhost').
  rewrite (Hdistinct _ _ _ Hhost Hhost') in Hk.
  unfold is_control in Hc. apply orb_false_elim in Hc as [H1 H2].
  apply bool_decide_eq_false in H1, H2. tauto.
Qed.

Lemma plan_avoids_unnamed_control_ports_witness :
  (∀ h, h ∈ ["32780"] →
        ∃ k, is_control web_insp k = false ∧ host_of web_insp k = Some h) ∧
  (host_ports_distinct web_insp → plan_excludes_control web_insp ["32780"]).
Proof.
  apply (plan_avoids_unnamed_control_ports sorted_order web_insp [get_root] 0 0
           [80%N] false true "docker-slim[build]:"
           (probe_of web_insp [80%N] ["32780"]) None).
  - intros n Hn. apply list_elem_of_singleton in Hn as ->. vm_compute. reflexivity.
  - intros [=].
  - vm_compute. reflexivity.
Defined.

(** C5: without target ports the plan starts with the host ports of the
    exposed ports of the image, last declared first (an entry without a
    protocol read as tcp, unbound entries skipped), followed by the other
    available host ports in some order; for exposed ports [A; B; C], all
    bound, the plan starts with the host ports of C, B and A; and the
    constructor returns whenever every bound port has a binding. *)
Theorem plan_reverse_exposed
    order insp info cmds retryCount retryWait probeFull printState printPrefix :
  DockerfileInfo insp = Some info →
  (∀ probe err,
     NewCustomProbe order insp cmds retryCount retryWait [] probeFull printState
       printPrefix = Ret (probe, err) →
     ∃ rest,
       Ports probe = exposed_hosts insp (ExposedPorts info) ++ rest ∧
       rest ≡ₚ elements (available insp ∖
                         list_to_set (exposed_hosts insp (ExposedPorts info))) ∧
       ∀ A B C a b c,
         ExposedPorts info = [A; B; C] →
         host_of insp (normalize_port A) = Some a →
         host_of insp (normalize_port B) = Some b →
         host_of insp (normalize_port C) = Some c →
         Ports probe = [c; b; a] ++ rest) ∧
  ((∀ k, NetworkSettings_Ports insp !! k ≠ Some []) →
   ∃ probe,
     NewCustomProbe order insp cmds retryCount retryWait [] probeFull printState
       printPrefix = Ret (probe, None)).
Proof.
  intros Hinfo. split.
  - intros probe err Hret.
    apply NewCustomProbe_Ret in Hret
      as (_ & _ & [(Hne & _)|(_ & info' & rest & Hinfo' & Hports & Hperm & _)]);
      [done|].
    rewrite Hinfo in Hinfo'. injection Hinfo' as <-.
    exists rest. split; [done|]. split; [done|].
    intros A B C a b c HE Ha Hb Hc. rewrite Hports. f_equal.
    unfold exposed_hosts. rewrite HE. cbn. by rewrite Hc, Hb, Ha.
  - intros Hb. apply NewCustomProbe_total; [done|]. intros _. by rewrite Hinfo.
Qed.

Lemma plan_reverse_exposed_witness :
  ∃ probe,
    NewCustomProbe reversed_order three_insp [get_root] 0 0 [] false true
      "docker-slim[build]:" = Ret (probe, None)
    ∧ ∃ rest, Ports probe = ["32782"; "32781"; "32780"] ++ rest.
Proof.
  destruct (plan_reverse_exposed reversed_order three_insp
              (dockerfile ["80"; "443/tcp"; "8080"]) [get_root] 0 0 false true
              "docker-slim[build]:" eq_refl) as [Hplan Htotal].
  destruct Htotal as [probe Hret].
  { intros k. destruct (decide (k = "80/tcp")) as [->|?]; [by vm_compute|].
    unfold three_insp, three_ports; simpl.
    rewrite lookup_insert_ne by done.
    repeat (rewrite lookup_insert; case_decide; [done|]).
    by rewrite lookup_empty. }
  exists probe. split; [exact Hret|].
  destruct (Hplan probe None Hret) as (rest & _ & _ & HABC).
  exists rest.
  apply (HABC "80" "443/tcp" "8080"); vm_compute; reflexivity.
Defined.

(** C9: [NewCustomProbe] indexes the first binding of every entry it
    consults without a check: a consulted entry with no binding (a
    non-control entry when there are no target ports, a bound target port
    otherwise) makes it panic with an index out of range; so it returns
    only if each of these entries has a binding, and the error it returns
    is always nil. *)
Theorem NewCustomProbe_needs_bindings
    order insp cmds retryCount retryWait targetPorts probeFull printState
    printPrefix :
  (∀ k, NetworkSettings_Ports insp !! k = Some [] →
        (targetPorts = [] ∧ is_control insp k = false)
        ∨ (targetPorts ≠ [] ∧ ∃ n, n ∈ targetPorts ∧ k = port_spec n) →
        NewCustomProbe order insp cmds retryCount retryWait targetPorts
          probeFull printState printPrefix = Panics IndexOutOfRange) ∧
  (∀ probe err,
     NewCustomProbe order insp cmds retryCount retryWait targetPorts probeFull
       printState printPrefix = Ret (probe, err) →
     err = None ∧
     ∀ k bs, NetworkSettings_Ports insp !! k = Some bs →
        (targetPorts = [] ∧ is_control insp k = false)
        ∨ (targetPorts ≠ [] ∧ ∃ n, n ∈ targetPorts ∧ k = port_spec n) →
        bs ≠ []).
Proof.
  assert (Hret : ∀ probe err,
     NewCustomProbe order insp cmds retryCount retryWait targetPorts probeFull
       printState printPrefix = Ret (probe, err) →
     err = None ∧
     ∀ k bs, NetworkSettings_Ports insp !! k = Some bs →
        (targetPorts = [] ∧ is_control insp k = false)
        ∨ (targetPorts ≠ [] ∧ ∃ n, n ∈ targetPorts ∧ k = port_spec n) →
        bs ≠ []).
  { intros probe err H. apply NewCustomProbe_Ret in H as (-> & Hctl & Hcases).
    split; [done|]. intros k bs Hk Hcons ->.
    destruct Hcons as [[_ Hc]|(Hne & n & Hn & ->)].
    - rewrite (Hctl k Hk) in Hc. discriminate.
    - destruct Hcases as [(_ & _ & Hall)|(Hnil & _)]; [|done].
      by apply (Hall n Hn). }
  split; [|exact Hret].
  intros k Hk Hcons.
  destruct (NewCustomProbe _ _ _ _ _ _ _ _ _) as [[probe err]|e] eqn:Hr.
  - destruct (Hret probe err eq_refl) as [_ Hall]. by destruct (Hall k [] Hk Hcons).
  - f_equal.
    apply NewCustomProbe_Panics in Hr as [[-> _]|(-> & Hnil & Hnone & Hctl)]; [done|].
    exfalso. destruct Hcons as [[_ Hc]|[Hne _]]; [|done].
    rewrite (Hctl k Hk) in Hc. discriminate.
Qed.

Lemma NewCustomProbe_needs_bindings_witness :
  NewCustomProbe sorted_order unpublished_insp [get_root] 0 0 [] false true
    "docker-slim[build]:" = Panics IndexOutOfRange.
Proof.
  apply (proj1 (NewCustomProbe_needs_bindings sorted_order unpublished_insp
                  [get_root] 0 0 [] false true "docker-slim[build]:") "80/tcp").
  - vm_compute. reflexivity.
  - left. split; [reflexivity|vm_compute; reflexivity].
Defined.

(** Why [host_ports_distinct] is assumed above: a control port can share
    its host port with a service port. *)
Lemma control_port_shares_host_port :
  ∃ probe,
    NewCustomProbe sorted_order shared_host_port_insp [get_root] 0 0 [] false true
      "docker-slim[build]:" = Ret (probe, None)
    ∧ Ports probe = ["8080"]
    ∧ host_of shared_host_port_insp "65501/tcp" = Some "8080".
Proof. eexists. repeat split; vm_compute; reflexivity. Qed.

(** Two exposed ports, both bound: the last one declared is probed first,
    in both iteration orders of the maps. *)
Example plan_two_exposed :
  (∃ probe,
     NewCustomProbe sorted_order two_exposed_insp [get_root] 0 0 [] false true
       "docker-slim[build]:" = Ret (probe, None)
     ∧ Ports probe = ["32781"; "32780"]) ∧
  (∃ probe,
     NewCustomProbe reversed_order two_exposed_insp [get_root] 0 0 [] false true
       "docker-slim[build]:" = Ret (probe, None)
     ∧ Ports probe = ["32781"; "32780"]).
Proof. split; eexists; split; vm_compute; reflexivity. Qed.

(** Target ports are not completed from the available ports. *)
Example plan_target_only :
  ∃ probe,
    NewCustomProbe sorted_order three_insp [get_root] 0 0 [8080%N; 7%N] false true
      "docker-slim[build]:" = Ret (probe, None)
    ∧ Ports probe = ["32782"].
Proof. eexists. split; vm_compute; reflexivity. Qed.

(** * Properties of the probe worker *)

Lemma free_of_app bad t1 t2 :
  free_of bad t1 → free_of bad t2 → free_of bad (t1 ++ t2).
Proof. apply Forall_app_2. Qed.

Ltac wstep :=
  unfold mbind, W_bind, mret, W_ret, emit, sleep, now, wpanic, get_callCount,
    get_okCount, get_errCount, incr_callCount, incr_errCount, incr_okCount,
    defer_BodyClose, client_Do; simpl.

Section WorkerFacts.
Context {World : Type} (net : Network World).
Implicit Types (st : @wstate World) (p : CustomProbe) (cmd : HTTPProbeCmd).

(** Building the request. *)
Lemma add_headers_Some hlines r st :
  add_headers hlines (Some r) st =
  WRet (Some {| req_Method := req_Method r; req_URL := req_URL r;
                req_Body := req_Body r;
                req_Header := req_Header r ++ header_pairs hlines;
                req_BasicAuth := req_BasicAuth r |}) st.
Proof.
  revert r. induction hlines as [|hline rest IH]; intros r; simpl.
  - unfold header_pairs. simpl. rewrite app_nil_r. by destruct r.
  - unfold header_pairs. simpl. destruct (SplitN2 ":" hline) as [[h0 h1]|].
    + rewrite IH. simpl. by rewrite <- app_assoc.
    + apply IH.
Qed.

Lemma add_headers_None hlines st :
  add_headers hlines None st = WRet None st ∨
  add_headers hlines None st = WPanic NilDereference st.
Proof.
  induction hlines as [|hline rest IH]; simpl; [by left|].
  destruct (SplitN2 ":" hline) as [[h0 h1]|]; [by right|done].
Qed.

(** A request that cannot be built is dereferenced all the same. *)
Lemma attempt_nil_request p cmd addr i st :
  http_NewRequest_ok net (Method cmd) addr = false →
  attempt net p cmd addr i st = WPanic NilDereference st.
Proof.
  intros Hreq. unfold attempt. rewrite Hreq. unfold mbind at 1, W_bind at 1.
  destruct (add_headers_None (Headers cmd) st) as [-> | ->]; [|done].
  unfold mbind at 1, W_bind at 1. unfold set_auth.
  destruct (negb _ || negb _); wstep; done.
Qed.

(** One attempt whose request could be built. *)
Lemma attempt_built p cmd addr i st :
  http_NewRequest_ok net (Method cmd) addr = true →
  attempt net p cmd addr i st =
  let r := (httpClient_Do net (world st) (request_of cmd addr)).1 in
  let w := (httpClient_Do net (world st) (request_of cmd addr)).2 in
  let call := wrapU64 (callCount st + 1) in
  WRet (is_ok r)
    {| callCount := call;
       errCount := if is_ok r then errCount st else wrapU64 (errCount st + 1);
       okCount := if is_ok r then wrapU64 (okCount st + 1) else okCount st;
       trace := trace st ++ HTTPCall (request_of cmd addr) (is_ok r)
                  :: after_call p cmd addr i call r (time_Now net w);
       deferred := (if has_response r then [call] else []) ++ deferred st;
       world := match r with
                | DoOk _ => w
                | DoErr _ err => time_Sleep net (backoff p err) w
                end |}.
Proof.
  intros Hreq. unfold attempt. rewrite Hreq. unfold mbind at 1, W_bind at 1.
  rewrite add_headers_Some. simpl.
  unfold mbind at 1, W_bind at 1.
  assert (Hauth : set_auth cmd
                    (Some {| req_Method := Method cmd; req_URL := addr;
                             req_Body := Body cmd;
                             req_Header := header_pairs (Headers cmd);
                             req_BasicAuth := None |}) st
                  = WRet (Some (request_of cmd addr)) st).
  { unfold set_auth, request_of, wants_auth. by destruct (negb _ || negb _). }
  rewrite Hauth. clear Hauth. unfold after_call, call_line.
  wstep. destruct (httpClient_Do net (world st) (request_of cmd addr)) as [r w].
  simpl. destruct r as [res|[res|] err]; destruct (PrintState p); simpl;
    rewrite <- ?app_assoc; reflexivity.
Qed.

(** *** What the loops add to the state *)

Lemma successes_app t1 t2 : successes (t1 ++ t2) = (successes t1 + successes t2)%nat.
Proof.
  induction t1 as [|e t1 IH]; [done|]. destruct e as [| |req [|]| | | | | | |]; simpl; lia.
Qed.

Lemma successes_after_call p cmd addr i call r t :
  successes (after_call p cmd addr i call r t) = 0%nat.
Proof.
  unfold after_call.
  destruct (has_response r), (PrintState p), r as [res|res err]; reflexivity.
Qed.

Lemma successes_pos t : (0 < successes t)%nat ↔ ∃ req, HTTPCall req true ∈ t.
Proof.
  induction t as [|e t IH]; simpl.
  - split; [lia|]. intros [req H]. by apply elem_of_nil in H.
  - assert (Hrest : (∃ req, HTTPCall req true ∈ t) → ∃ req, HTTPCall req true ∈ e :: t).
    { intros [req H]. exists req. by apply list_elem_of_further. }
    destruct e as [| |req [|]| | | | | | |];
      try (split; [intros H; apply Hrest, IH, H|
                   intros [req' H]; apply IH; exists req';
                   apply elem_of_cons in H as [H|H]; [discriminate H|done]]).
    split; [|lia]. intros _. exists req. apply list_elem_of_here.
Qed.

Lemma wrapU64_range z : in_u64 (wrapU64 z).
Proof. unfold in_u64, wrapU64. apply Z.mod_pos_bound. lia. Qed.

Lemma wrapU64_small z : in_u64 z → wrapU64 z = z.
Proof. unfold in_u64, wrapU64. intros. by apply Z.mod_small. Qed.

Lemma wrapU64_add_l a b : wrapU64 (wrapU64 a + b) = wrapU64 (a + b).
Proof. unfold wrapU64. apply Zplus_mod_idemp_l. Qed.

Lemma step_refl st : step st st [].
Proof.
  split; [by rewrite app_nil_r|]. split; [|done].
  simpl. by rewrite Z.add_0_r.
Qed.

Lemma step_trans st st1 st2 e1 e2 :
  step st st1 e1 → step st1 st2 e2 → step st st2 (e1 ++ e2).
Proof.
  intros (Ht1 & Hc1 & Hw1) (Ht2 & Hc2 & Hw2). split; [|split].
  - by rewrite Ht2, Ht1, app_assoc.
  - rewrite Hc2, <- wrapU64_add_l, Hc1, wrapU64_add_l, successes_app.
    f_equal. lia.
  - auto.
Qed.

Lemma attempt_step p cmd addr i st brk st' :
  attempt net p cmd addr i st = WRet brk st' →
  ∃ evs, step st st' evs ∧
         successes evs = (if brk then 1 else 0)%nat ∧
         HTTPCall (request_of cmd addr) brk ∈ evs.
Proof.
  destruct (http_NewRequest_ok net (Method cmd) addr) eqn:Hreq;
    [|by rewrite attempt_nil_request].
  rewrite attempt_built by done. cbv zeta.
  set (r := (httpClient_Do net (world st) (request_of cmd addr)).1).
  set (w := (httpClient_Do net (world st) (request_of cmd addr)).2).
  intros [= <- <-].
  exists (HTTPCall (request_of cmd addr) (is_ok r)
            :: after_call p cmd addr i (wrapU64 (callCount st + 1)) r
                 (time_Now net w)).
  assert (Hn : successes
                 (HTTPCall (request_of cmd addr) (is_ok r)
                    :: after_call p cmd addr i (wrapU64 (callCount st + 1)) r
                         (time_Now net w))
               = (if is_ok r then 1 else 0)%nat).
  { cbn [successes]. rewrite successes_after_call. by destruct (is_ok r). }
  split; [|split; [done|apply list_elem_of_here]].
  unfold step. rewrite Hn. cbn [trace okCount]. split; [done|]. split.
  - destruct (is_ok r); [|by rewrite Z.add_0_r].
    apply (wrapU64_small _ (wrapU64_range _)).
  - intros Hw. destruct (is_ok r); [apply wrapU64_range|done].
Qed.

Lemma retry_loop_step p cmd addr n i st st' :
  retry_loop net p cmd addr n i st = WRet tt st' →
  ∃ evs, step st st' evs ∧ (successes evs ≤ 1)%nat ∧
         (n ≠ O → ∃ ok, HTTPCall (request_of cmd addr) ok ∈ evs).
Proof.
  revert i st. induction n as [|n IH]; intros i st; simpl.
  - intros [= <-]. exists []. split; [apply step_refl|]. split; [simpl; lia|done].
  - unfold mbind at 1, W_bind at 1.
    destruct (attempt net p cmd addr i st) as [brk st1|e st1] eqn:Ha; [|done].
    apply attempt_step in Ha as (evs1 & Hs1 & Hn1 & Hc1).
    destruct brk.
    + intros [= <-]. exists evs1. split; [done|]. split; [lia|]. intros _. eauto.
    + intros H. apply IH in H as (evs2 & Hs2 & Hn2 & _).
      exists (evs1 ++ evs2). split; [by eapply step_trans|].
      rewrite successes_app. split; [lia|]. intros _. exists false.
      apply elem_of_app. by left.
Qed.

Lemma maxRetryCount_pos p : Z.to_nat (maxRetryCount p) ≠ O.
Proof.
  unfold maxRetryCount, probeRetryCount.
  destruct (Z.ltb_spec 0 (RetryCount p)); lia.
Qed.

Lemma protocols_loop_step p cmd port protos st st' :
  protocols_loop net p cmd port protos st = WRet tt st' →
  ∃ evs, step st st' evs ∧ (successes evs ≤ length protos)%nat ∧
         ∀ proto, proto ∈ protos →
           ∃ ok, HTTPCall (request_of cmd (target_addr p proto port cmd)) ok ∈ evs.
Proof.
  revert st. induction protos as [|proto protos IH]; intros st; simpl.
  - intros [= <-]. exists []. split; [apply step_refl|]. split; [simpl; lia|].
    intros proto H. by apply elem_of_nil in H.
  - unfold mbind at 1, W_bind at 1.
    destruct (retry_loop net p cmd _ _ 0 st) as [[] st1|e st1] eqn:Hr; [|done].
    apply retry_loop_step in Hr as (evs1 & Hs1 & Hn1 & Hc1).
    intros H. apply IH in H as (evs2 & Hs2 & Hn2 & Hc2).
    exists (evs1 ++ evs2). split; [by eapply step_trans|].
    rewrite successes_app. split; [lia|].
    intros proto' Hin. apply elem_of_cons in Hin as [->|Hin].
    + destruct (Hc1 (maxRetryCount_pos p)) as [ok Hok]. exists ok.
      apply elem_of_app. by left.
    + destruct (Hc2 _ Hin) as [ok Hok]. exists ok. apply elem_of_app. by right.
Qed.

Lemma length_protocols cmd : (length (protocols cmd) ≤ 2)%nat.
Proof. unfold protocols. destruct (String.eqb _ _); simpl; lia. Qed.

Lemma cmds_loop_step p port cmds st st' :
  cmds_loop net p port cmds st = WRet tt st' →
  ∃ evs, step st st' evs ∧ (successes evs ≤ 2 * length cmds)%nat ∧
         ∀ cmd proto, cmd ∈ cmds → proto ∈ protocols cmd →
           ∃ ok, HTTPCall (request_of cmd (target_addr p proto port cmd)) ok ∈ evs.
Proof.
  revert st. induction cmds as [|cmd cmds IH]; intros st; simpl.
  - intros [= <-]. exists []. split; [apply step_refl|]. split; [simpl; lia|].
    intros cmd proto H. by apply elem_of_nil in H.
  - unfold mbind at 1, W_bind at 1.
    destruct (protocols_loop net p cmd port _ st) as [[] st1|e st1] eqn:Hr; [|done].
    apply protocols_loop_step in Hr as (evs1 & Hs1 & Hn1 & Hc1).
    intros H. apply IH in H as (evs2 & Hs2 & Hn2 & Hc2).
    exists (evs1 ++ evs2). split; [by eapply step_trans|].
    rewrite successes_app. pose proof (length_protocols cmd). split; [lia|].
    intros cmd' proto Hin Hp. apply elem_of_cons in Hin as [->|Hin].
    + destruct (Hc1 _ Hp) as [ok Hok]. exists ok. apply elem_of_app. by left.
    + destruct (Hc2 _ _ Hin Hp) as [ok Hok]. exists ok. apply elem_of_app. by right.
Qed.

(** *** The loops return when every request can be built *)

Lemma retry_loop_total p cmd addr n i st :
  http_NewRequest_ok net (Method cmd) addr = true →
  ∃ st', retry_loop net p cmd addr n i st = WRet tt st'.
Proof.
  intros Hreq. revert i st. induction n as [|n IH]; intros i st; simpl; [by eexists|].
  unfold mbind at 1, W_bind at 1. rewrite attempt_built by done. simpl.
  destruct (is_ok _); [by eexists|apply IH].
Qed.

Lemma protocols_loop_total p cmd port protos st :
  (∀ proto, proto ∈ protos →
     http_NewRequest_ok net (Method cmd) (target_addr p proto port cmd) = true) →
  ∃ st', protocols_loop net p cmd port protos st = WRet tt st'.
Proof.
  revert st. induction protos as [|proto protos IH]; intros st Hreq; simpl;
    [by eexists|].
  unfold mbind at 1, W_bind at 1.
  destruct (retry_loop_total p cmd (target_addr p proto port cmd)
              (Z.to_nat (maxRetryCount p)) 0 st) as [st1 ->].
  { apply Hreq, list_elem_of_here. }
  apply IH. intros proto' H. by apply Hreq, list_elem_of_further.
Qed.

Lemma cmds_loop_total p port cmds st :
  (∀ cmd proto, cmd ∈ cmds → proto ∈ protocols cmd →
     http_NewRequest_ok net (Method cmd) (target_addr p proto port cmd) = true) →
  ∃ st', cmds_loop net p port cmds st = WRet tt st'.
Proof.
  revert st. induction cmds as [|cmd cmds IH]; intros st Hreq; simpl; [by eexists|].
  unfold mbind at 1, W_bind at 1.
  destruct (protocols_loop_total p cmd port (protocols cmd) st) as [st1 ->].
  { intros proto H. apply Hreq; [apply list_elem_of_here|done]. }
  apply IH. intros cmd' proto H. by apply Hreq, list_elem_of_further.
Qed.

End WorkerFacts.

Section WorkerRuns.
Context {World : Type} (net : Network World).
Implicit Types (st : @wstate World) (p : CustomProbe) (cmd : HTTPProbeCmd).

(** *** The plan is read only by the loop over the ports *)

Lemma retry_loop_with_ports p plan cmd addr n i st :
  retry_loop net (with_ports p plan) cmd addr n i st
  = retry_loop net p cmd addr n i st.
Proof.
  revert i st. induction n as [|n IH]; intros i st; [done|]. simpl.
  unfold mbind, W_bind.
  change (attempt net (with_ports p plan) cmd addr i st)
    with (attempt net p cmd addr i st).
  destruct (attempt net p cmd addr i st) as [[|] st1|e st1]; [done|apply IH|done].
Qed.

Lemma protocols_loop_with_ports p plan cmd port protos st :
  protocols_loop net (with_ports p plan) cmd port protos st
  = protocols_loop net p cmd port protos st.
Proof.
  revert st. induction protos as [|proto protos IH]; intros st; [done|]. simpl.
  unfold mbind, W_bind. rewrite retry_loop_with_ports.
  change (target_addr (with_ports p plan) proto port cmd)
    with (target_addr p proto port cmd).
  change (maxRetryCount (with_ports p plan)) with (maxRetryCount p).
  destruct (retry_loop net p cmd _ _ 0 st) as [[] st1|e st1]; [apply IH|done].
Qed.

Lemma cmds_loop_with_ports p plan port cmds st :
  cmds_loop net (with_ports p plan) port cmds st = cmds_loop net p port cmds st.
Proof.
  revert st. induction cmds as [|cmd cmds IH]; intros st; [done|]. simpl.
  unfold mbind, W_bind. rewrite protocols_loop_with_ports.
  destruct (protocols_loop net p cmd port _ st) as [[] st1|e st1]; [apply IH|done].
Qed.

Lemma ports_loop_with_ports p plan ports st :
  ports_loop net (with_ports p plan) ports st = ports_loop net p ports st.
Proof.
  revert st. induction ports as [|port ports IH]; intros st; [done|]. simpl.
  unfold mbind, W_bind, get_okCount.
  destruct ((0 <? okCount st) && negb (ProbeFull p)); [done|].
  rewrite cmds_loop_with_ports.
  change (Cmds (with_ports p plan)) with (Cmds p).
  destruct (cmds_loop net p port (Cmds p) st) as [[] st1|e st1]; [apply IH|done].
Qed.

(** *** The loop over the ports *)

Lemma ports_loop_stops p ports st :
  ProbeFull p = false → 0 < okCount st →
  ports_loop net p ports st = WRet tt st.
Proof.
  intros Hfull Hok. destruct ports as [|port ports]; [done|]. simpl.
  unfold mbind, W_bind, get_okCount. rewrite Hfull.
  by destruct (Z.ltb_spec 0 (okCount st)); [|lia].
Qed.

Lemma ports_loop_app p ps1 ps2 st :
  ports_loop net p (ps1 ++ ps2) st =
  match ports_loop net p ps1 st with
  | WRet _ st1 => ports_loop net p ps2 st1
  | WPanic e st1 => WPanic e st1
  end.
Proof.
  revert st. induction ps1 as [|port ps1 IH]; intros st; [done|]. simpl.
  unfold mbind, W_bind, get_okCount.
  destruct ((0 <? okCount st) && negb (ProbeFull p)) eqn:Hbrk.
  - destruct ps2 as [|port2 ps2]; [done|]. simpl.
    unfold mbind, W_bind, get_okCount. by rewrite Hbrk.
  - destruct (cmds_loop net p port (Cmds p) st) as [[] st1|e st1]; [apply IH|done].
Qed.

(** Without [ProbeFull], and with fewer than 2^63 commands (the length
    of a Go slice is an [int]), the success counter at the end of the loop
    is the number of successful calls: it cannot wrap around, because the
    loop stops after the first port with a success. *)
Lemma ports_loop_counts p ports st st' :
  ProbeFull p = false → Z.of_nat (length (Cmds p)) < 2 ^ 63 →
  okCount st = 0 →
  ports_loop net p ports st = WRet tt st' →
  ∃ evs, trace st' = trace st ++ evs ∧ okCount st' = Z.of_nat (successes evs).
Proof.
  intros Hfull Hlen. revert st.
  induction ports as [|port ports IH]; intros st Hzero; simpl.
  - intros [= <-]. exists []. by rewrite app_nil_r.
  - unfold mbind, W_bind, get_okCount. rewrite Hzero, Hfull. simpl.
    destruct (cmds_loop net p port (Cmds p) st) as [[] st1|e st1] eqn:Hc; [|done].
    apply cmds_loop_step in Hc as (evs1 & (Ht1 & Hc1 & Hw1) & Hn1 & _).
    assert (Hok1 : okCount st1 = Z.of_nat (successes evs1)).
    { rewrite <- (wrapU64_small (okCount st1)).
      - rewrite Hc1, Hzero, Z.add_0_l. apply wrapU64_small. unfold in_u64. lia.
      - apply Hw1. rewrite Hzero. unfold in_u64. lia. }
    destruct (successes evs1) as [|s1] eqn:Hs1.
    + intros H. apply IH in H as (evs2 & Ht2 & Hok2); [|done].
      exists (evs1 ++ evs2). split; [by rewrite Ht2, Ht1, app_assoc|].
      rewrite successes_app, Hs1. done.
    + rewrite ports_loop_stops by (done || lia). intros [= <-].
      exists evs1. by rewrite Hs1.
Qed.

(** *** The goroutine as a whole *)

Lemma worker_body_phases p st :
  worker_body net p st =
  match warm_up net p st with
  | WRet _ st1 =>
      match ports_loop net p (Ports p) st1 with
      | WRet _ st2 => report_done p st2
      | WPanic e st2 => WPanic e st2
      end
  | WPanic e st1 => WPanic e st1
  end.
Proof.
  unfold worker_body. unfold mbind at 1 2, W_bind at 1 2.
  destruct (warm_up net p st) as [[] st1|e st1]; [|done].
  by destruct (ports_loop net p (Ports p) st1) as [[] st2|e st2].
Qed.

Lemma warm_up_ret p w :
  ∃ st1, warm_up net p (initial w) = WRet tt st1 ∧ okCount st1 = 0 ∧
         callCount st1 = 0 ∧ errCount st1 = 0 ∧ deferred st1 = [] ∧
         successes (trace st1) = 0%nat.
Proof.
  unfold warm_up, initial. wstep. destruct (PrintState p); wstep; eauto 10.
Qed.

Lemma report_done_ret p st :
  ∃ st' evs, report_done p st = WRet tt st' ∧ trace st' = trace st ++ evs ∧
             successes evs = 0%nat ∧ deferred st' = deferred st.
Proof.
  unfold report_done. wstep. destruct (PrintState p); wstep.
  - eexists _, [_; _; _]. split; [done|]. simpl. by rewrite <- !app_assoc.
  - by eexists _, [_].
Qed.

Lemma report_done_with_ports p plan st :
  report_done (with_ports p plan) st = report_done p st.
Proof. reflexivity. Qed.

Lemma warm_up_with_ports p plan st :
  warm_up net (with_ports p plan) st = warm_up net p st.
Proof. reflexivity. Qed.

Lemma successes_closes (calls : list Z) : successes (BodyClose <$> calls) = 0%nat.
Proof. by induction calls. Qed.

End WorkerRuns.

(** ** The claims about the probe worker *)

(** C3 (evaluation at the failing input): one port, the default command
    with no protocol, every request answered with 200.  The body of the
    first response is read before the second request is sent, but it is
    closed only when the goroutine returns, after the done-channel is
    closed: [defer] postpones [res.Body.Close()] to the end of the
    function, not to the end of the loop body. *)
Lemma body_closed_only_at_return :
  let t := run_trace (worker net_200 (probe_of web_insp [] ["32780"]) tt) in
  closed_before_next_call [] t = false ∧
  (∃ pre, t = pre ++ [CloseDoneChan; BodyClose 2; BodyClose 1]) ∧
  (∃ t1 t2 t3 req, t = t1 ++ [BodyDrain 1] ++ t2 ++ [HTTPCall req true] ++ t3
                   ∧ (BodyClose 1 ∉ t1 ++ t2) ∧ BodyClose 1 ∈ t3).
Proof.
  split; [vm_compute; reflexivity|]. split.
  - eexists [_; _; _; _; _; _; _; _; _; _; _; _]. vm_compute. reflexivity.
  - eexists [_; _; _; _], [_], _, _. split; [vm_compute; reflexivity|].
    split.
    + intros H. repeat (apply elem_of_cons in H as [H|H]; [discriminate H|]).
      by apply elem_of_nil in H.
    + do 7 apply list_elem_of_further. apply list_elem_of_here.
Qed.

(** C4: without [probe_full], once a call has succeeded no further port
    is visited: a run in which some call succeeded is not changed by any
    ports added at the end of the plan.  Within a port, every command is
    exercised with each of its protocols, whatever the calls returned: when
    the work on a port comes to its end every command has been called, and
    it comes to its end whenever the requests can be built. *)
Theorem probe_stops_after_first_success
    {World : Type} (net : Network World) (p : CustomProbe) :
  ProbeFull p = false →
  Z.of_nat (length (Cmds p)) < 2 ^ 63 →
  (∀ w more,
     (∃ req, HTTPCall req true ∈ run_trace (worker net p w)) →
     worker net (with_ports p (Ports p ++ more)) w = worker net p w) ∧
  (∀ port st,
     (∀ st', cmds_loop net p port (Cmds p) st = WRet tt st' →
        ∃ evs, trace st' = trace st ++ evs ∧
          ∀ cmd proto, cmd ∈ Cmds p → proto ∈ protocols cmd →
            ∃ ok, HTTPCall (request_of cmd (target_addr p proto port cmd)) ok ∈ evs) ∧
     ((∀ cmd proto, cmd ∈ Cmds p → proto ∈ protocols cmd →
         http_NewRequest_ok net (Method cmd) (target_addr p proto port cmd) = true) →
      ∃ st', cmds_loop net p port (Cmds p) st = WRet tt st')).
Proof.
  intros Hfull Hlen. split.
  - intros w more Hsucc. unfold worker. rewrite !worker_body_phases.
    rewrite warm_up_with_ports.
    destruct (warm_up_ret net p w) as (st1 & Hw & Hok1 & _ & _ & _ & Hs1).
    rewrite Hw in *. rewrite ports_loop_with_ports.
    change (Ports (with_ports p (Ports p ++ more))) with (Ports p ++ more).
    rewrite ports_loop_app.
    unfold worker in Hsucc. rewrite worker_body_phases, Hw in Hsucc.
    destruct (ports_loop net p (Ports p) st1) as [[] st2|e st2] eqn:Hloop; [|done].
    destruct (ports_loop_counts net p _ _ _ Hfull Hlen Hok1 Hloop) as (evs & Ht2 & Hok2).
    destruct (report_done_ret p st2) as (st3 & evs3 & Hd & Ht3 & Hs3 & Hdef).
    rewrite Hd in Hsucc. apply successes_pos in Hsucc.
    unfold finish, run_trace, run_deferred in Hsucc.
    rewrite Ht3, Ht2, !successes_app, Hs1, Hs3, successes_closes in Hsucc.
    rewrite ports_loop_stops by (done || lia). done.
  - intros port st. split.
    + intros st' Hloop.
      destruct (cmds_loop_step net p port (Cmds p) st st' Hloop)
        as (evs & (Ht & _) & _ & Hcalls).
      by exists evs.
    + apply cmds_loop_total.
Qed.

Lemma probe_stops_after_first_success_witness :
  worker net_200 (with_ports (probe_of three_insp [] ["32781"])
                    (["32781"] ++ ["32780"])) tt
  = worker net_200 (probe_of three_insp [] ["32781"]) tt.
Proof.
  apply (proj1 (probe_stops_after_first_success net_200
                  (probe_of three_insp [] ["32781"]) eq_refl eq_refl) tt ["32780"]).
  eexists. vm_compute. do 2 apply list_elem_of_further. apply list_elem_of_here.
Defined.

(** C6, as stated, does not hold for every positive [retry_wait]: with
    [retry_wait = 4611686019] the not-ready wait of [2 * retry_wait]
    seconds does not fit the 64-bit nanosecond count of a [time.Duration];
    the duration handed to [time.Sleep] is negative. *)
Lemma backoff_wraps_around :
  ¬ (∀ p text, 0 < RetryWait p < 2 ^ 63 →
       backoff p (url_Error io_EOF text) = 2 * RetryWait p * time_Second).
Proof.
  intros H. specialize (H (retry_wait_probe 4611686019) "EOF").
  vm_compute in H. by specialize (H (conj eq_refl eq_refl)).
Qed.

(** C6 (amended): after a failed attempt the worker sleeps for a wait
    chosen by the class of the error: 8 s (web error), 16 s (not ready) and
    4 s (other) when [retry_wait] is not set; [R], [2R] and [R/2] seconds
    when [retry_wait = R] with [0 < R ≤ 4611686018], so that the waits fit a
    [time.Duration]; with [retry_wait = 10]: 10 s, 20 s and 5 s. *)
Theorem backoff_by_error_class
    {World : Type} (net : Network World) (p : CustomProbe)
    (cmd : HTTPProbeCmd) (addr : string) (i : Z) (st : @wstate World)
    (res : option Response) (err : error) (w : World) :
  http_NewRequest_ok net (Method cmd) addr = true →
  httpClient_Do net (world st) (request_of cmd addr) = (DoErr res err, w) →
  (∃ st' evs,
     attempt net p cmd addr i st = WRet false st' ∧
     trace st' = trace st ++ evs ++ [Sleep (backoff p err)]) ∧
  (RetryWait p ≤ 0 →
     backoff p err = match classify err with
                     | WebError => 8
                     | NotReady => 16
                     | OtherError => 4
                     end * time_Second) ∧
  (0 < RetryWait p ≤ 4611686018 →
     backoff p err = match classify err with
                     | WebError => RetryWait p
                     | NotReady => 2 * RetryWait p
                     | OtherError => RetryWait p / 2
                     end * time_Second) ∧
  (RetryWait p = 10 →
     backoff p err = match classify err with
                     | WebError => 10
                     | NotReady => 20
                     | OtherError => 5
                     end * time_Second).
Proof.
  intros Hreq Hdo.
  assert (Hdefault : RetryWait p ≤ 0 →
     backoff p err = match classify err with
                     | WebError => 8 | NotReady => 16 | OtherError => 4
                     end * time_Second).
  { intros HR. unfold backoff, notReadyErrorWait, webErrorWait, otherErrorWait.
    destruct (Z.ltb_spec 0 (RetryWait p)); [lia|].
    by destruct err as [[|] text|text]. }
  assert (Hset : 0 < RetryWait p ≤ 4611686018 →
     backoff p err = match classify err with
                     | WebError => RetryWait p
                     | NotReady => 2 * RetryWait p
                     | OtherError => RetryWait p / 2
                     end * time_Second).
  { intros HR. unfold backoff, notReadyErrorWait, webErrorWait, otherErrorWait.
    destruct (Z.ltb_spec 0 (RetryWait p)); [|lia].
    assert (Hsmall : ∀ z, - 2 ^ 63 ≤ z < 2 ^ 63 → wrap64 z = z).
    { intros z Hz. unfold wrap64. rewrite Z.mod_small; lia. }
    rewrite Z.quot_div_nonneg by lia.
    pose proof (Z.div_pos (RetryWait p) 2).
    pose proof (Z.div_le_upper_bound (RetryWait p) 2 4611686018).
    unfold time_Second.
    destruct err as [[|] text|text]; simpl;
      rewrite ?(Hsmall (RetryWait p * 2)) by lia; rewrite Hsmall; lia. }
  split; [|split; [done|split; [done|]]].
  - rewrite attempt_built by done. rewrite Hdo. simpl.
    eexists _, (HTTPCall _ _ :: Seek0 ::
                  (if match res with Some _ => true | None => false end
                   then [BodyDrain _] else [])
                  ++ (if PrintState p then [Stdout _] else [])).
    split; [reflexivity|]. simpl. unfold after_call. simpl.
    rewrite <- !app_assoc. reflexivity.
  - intros HR. rewrite Hset by lia. rewrite HR. by destruct (classify err).
Qed.

Lemma backoff_by_error_class_witness :
  backoff (retry_wait_probe 10)
    (url_Error inner_other "read: connection reset by peer") = 10 * time_Second.
Proof.
  apply (backoff_by_error_class net_reset (retry_wait_probe 10) get_root
           "http://127.0.0.1:32780/" 0 (initial tt) None
           (url_Error inner_other "read: connection reset by peer") tt
           eq_refl eq_refl).
  reflexivity.
Defined.

(** C10: the error of [http.NewRequest] is dropped.  An attempt whose
    request cannot be built dereferences the nil request and panics,
    before any call is counted; a command that is first in line and whose
    method never yields a request crashes the worker with no call made. *)
Theorem unbuildable_request_panics {World : Type} (net : Network World) :
  (∀ p cmd addr i (st : @wstate World),
     http_NewRequest_ok net (Method cmd) addr = false →
     attempt net p cmd addr i st = WPanic NilDereference st) ∧
  (∀ p w port ports cmd cmds,
     Ports p = port :: ports → Cmds p = cmd :: cmds →
     (∀ addr, http_NewRequest_ok net (Method cmd) addr = false) →
     run_end (worker net p w) = Crashed NilDereference ∧
     run_calls (worker net p w) = 0 ∧ run_errs (worker net p w) = 0 ∧
     ∀ req ok, HTTPCall req ok ∉ run_trace (worker net p w)).
Proof.
  split; [apply attempt_nil_request|].
  intros p w port ports cmd cmds Hports Hcmds Hreq.
  destruct (warm_up_ret net p w) as (st1 & Hw & Hok1 & Hcalls & Herrs & Hdef & Hs1).
  assert (Hloop : protocols_loop net p cmd port (protocols cmd) st1
                  = WPanic NilDereference st1).
  { unfold protocols. destruct (String.eqb (Protocol cmd) ""); simpl;
      unfold mbind at 1, W_bind at 1;
      destruct (Z.to_nat (maxRetryCount p)) as [|n] eqn:Hn;
      try (by destruct (maxRetryCount_pos p));
      simpl; unfold mbind at 1, W_bind at 1;
      by rewrite attempt_nil_request. }
  assert (Hrun : worker net p w = finish (Crashed NilDereference) st1).
  { unfold worker. rewrite worker_body_phases, Hw, Hports. cbn [ports_loop].
    unfold mbind at 1, W_bind at 1, get_okCount. rewrite Hok1. simpl.
    rewrite Hcmds. cbn [cmds_loop].
    unfold mbind at 2, W_bind at 2. unfold mbind at 1, W_bind at 1.
    by rewrite Hloop. }
  rewrite Hrun. simpl. split; [done|]. split; [done|]. split; [done|].
  intros req ok Hin. unfold run_deferred in Hin. rewrite Hdef in Hin. simpl in Hin.
  rewrite app_nil_r in Hin.
  revert Hin Hw. unfold warm_up, initial. wstep.
  destruct (PrintState p); wstep; intros Hin [= <-]; simpl in Hin;
    repeat (apply elem_of_cons in Hin as [Hin|Hin]; [discriminate Hin|]);
    by apply elem_of_nil in Hin.
Qed.

Lemma unbuildable_request_panics_witness :
  run_end (worker net_unbuildable
             {| PrintState := true; PrintPrefix := "docker-slim[build]:";
                Ports := ["32780"]; Cmds := [bad_method]; RetryCount := 0;
                RetryWait := 0; TargetPorts := []; ProbeFull := false;
                ContainerInspector := web_insp |} tt)
  = Crashed NilDereference.
Proof.
  apply (proj2 (unbuildable_request_panics net_unbuildable)
           {| PrintState := true; PrintPrefix := "docker-slim[build]:";
              Ports := ["32780"]; Cmds := [bad_method]; RetryCount := 0;
              RetryWait := 0; TargetPorts := []; ProbeFull := false;
              ContainerInspector := web_insp |} tt "32780" [] bad_method []
           eq_refl eq_refl).
  intros addr. reflexivity.
Defined.

(** Three attempts that all end in a reset connection, with
    [retry_count = 3] and no [retry_wait]: three calls, each followed by a
    wait of 8 s; the header line without a colon is dropped. *)
Example three_resets :
  let r := worker net_reset post_probe tt in
  run_end r = Finished ∧ run_calls r = 3 ∧ run_errs r = 3 ∧ run_oks r = 0 ∧
  filter is_Sleep (run_trace r)
    = [Sleep (9 * time_Second); Sleep (8 * time_Second);
       Sleep (8 * time_Second); Sleep (8 * time_Second)] ∧
  filter is_HTTPCall (run_trace r)
    = replicate 3
        (HTTPCall {| req_Method := "POST"; req_URL := "http://127.0.0.1:32999/";
                     req_Body := "{'x':1}";
                     req_Header := [("Content-Type", "application/json")];
                     req_BasicAuth := None |} false) ∧
  Stdout ("docker-slim[build]: info=http.probe.summary total=3 failures=3 successful=0" +:+ nl)
    ∈ run_trace r ∧
  Stdout ("docker-slim[build]: state=http.probe.done warning=no.successful.calls" +:+ nl)
    ∈ run_trace r.
Proof.
  repeat split; try (vm_compute; reflexivity).
  - vm_compute. do 14 apply list_elem_of_further. apply list_elem_of_here.
  - vm_compute. do 15 apply list_elem_of_further. apply list_elem_of_here.
Qed.

(** An empty plan: no call, the done-channel is closed all the same. *)
Example empty_plan_run :
  run_trace (worker net_200 (probe_of web_insp [] []) tt)
  = [Sleep (9 * time_Second);
     Stdout ("docker-slim[build]: state=http.probe.running" +:+ nl);
     Stdout ("docker-slim[build]: info=http.probe.summary total=0 failures=0 successful=0" +:+ nl);
     Stdout ("docker-slim[build]: state=http.probe.done warning=no.calls" +:+ nl);
     CloseDoneChan].
Proof. vm_compute. reflexivity. Qed.

(** ** Where the response bodies are closed *)

Section Closes.
Context {World : Type} (net : Network World).
Implicit Types (st : @wstate World) (p : CustomProbe) (cmd : HTTPProbeCmd).

Lemma after_call_no_close p cmd addr i call r t :
  free_of is_close (after_call p cmd addr i call r t).
Proof.
  unfold after_call.
  destruct (has_response r), (PrintState p), r as [res|res err];
    repeat constructor; by intros [].
Qed.

Lemma attempt_no_close p cmd addr i st :
  free_of is_close (trace st) →
  free_of is_close (trace (state_of (attempt net p cmd addr i st))).
Proof.
  intros Hst.
  destruct (http_NewRequest_ok net (Method cmd) addr) eqn:Hreq;
    [|by rewrite attempt_nil_request].
  rewrite attempt_built by done. simpl.
  apply free_of_app; [done|].
  constructor; [by intros []|apply after_call_no_close].
Qed.

Lemma retry_loop_no_close p cmd addr n i st :
  free_of is_close (trace st) →
  free_of is_close (trace (state_of (retry_loop net p cmd addr n i st))).
Proof.
  revert i st. induction n as [|n IH]; intros i st Hst; [done|]. simpl.
  unfold mbind, W_bind. pose proof (attempt_no_close p cmd addr i st Hst) as Ha.
  destruct (attempt net p cmd addr i st) as [[|] st1|e st1]; [done|by apply IH|done].
Qed.

Lemma protocols_loop_no_close p cmd port protos st :
  free_of is_close (trace st) →
  free_of is_close (trace (state_of (protocols_loop net p cmd port protos st))).
Proof.
  revert st. induction protos as [|proto protos IH]; intros st Hst; [done|]. simpl.
  unfold mbind, W_bind.
  pose proof (retry_loop_no_close p cmd (target_addr p proto port cmd)
                (Z.to_nat (maxRetryCount p)) 0 st Hst) as Hr.
  destruct (retry_loop net p cmd _ _ 0 st) as [[] st1|e st1]; [by apply IH|done].
Qed.

Lemma cmds_loop_no_close p port cmds st :
  free_of is_close (trace st) →
  free_of is_close (trace (state_of (cmds_loop net p port cmds st))).
Proof.
  revert st. induction cmds as [|cmd cmds IH]; intros st Hst; [done|]. simpl.
  unfold mbind, W_bind.
  pose proof (protocols_loop_no_close p cmd port (protocols cmd) st Hst) as Hr.
  destruct (protocols_loop net p cmd port _ st) as [[] st1|e st1]; [by apply IH|done].
Qed.

Lemma ports_loop_no_close p ports st :
  free_of is_close (trace st) →
  free_of is_close (trace (state_of (ports_loop net p ports st))).
Proof.
  revert st. induction ports as [|port ports IH]; intros st Hst; [done|]. simpl.
  unfold mbind, W_bind, get_okCount.
  destruct ((0 <? okCount st) && negb (ProbeFull p)); [done|].
  pose proof (cmds_loop_no_close p port (Cmds p) st Hst) as Hr.
  destruct (cmds_loop net p port (Cmds p) st) as [[] st1|e st1]; [by apply IH|done].
Qed.

(** In every run of the worker, whatever the plan, the commands and the
    network, no response body is closed before the function of the
    goroutine ends: all the closes come last, after the done-channel has
    been closed when the run finishes. *)
Lemma bodies_closed_at_return p w :
  ∃ pre calls,
    run_trace (worker net p w) = pre ++ (BodyClose <$> calls) ∧
    free_of is_close pre ∧
    (run_end (worker net p w) = Finished → last pre = Some CloseDoneChan).
Proof.
  unfold worker. rewrite worker_body_phases.
  assert (Hw : ∃ st1, warm_up net p (initial w) = WRet tt st1 ∧
                      free_of is_close (trace st1)).
  { unfold warm_up, initial. wstep. destruct (PrintState p); wstep;
      eexists; (split; [done|]); repeat constructor; by intros []. }
  destruct Hw as (st1 & -> & Hst1).
  pose proof (ports_loop_no_close p (Ports p) st1 Hst1) as Hloop.
  destruct (ports_loop net p (Ports p) st1) as [[] st2|e st2]; simpl in Hloop.
  - assert (Hd : ∃ st3 evs, report_done p st2 = WRet tt st3 ∧
                   trace st3 = trace st2 ++ evs ++ [CloseDoneChan] ∧
                   free_of is_close evs).
    { unfold report_done. wstep. destruct (PrintState p); wstep.
      - eexists _, [_; _]. split; [done|]. simpl. rewrite <- !app_assoc.
        split; [done|]. repeat constructor; by intros [].
      - eexists _, []. split; [done|]. split; [done|constructor]. }
    destruct Hd as (st3 & evs & -> & Ht3 & Hevs).
    exists (trace st3), (deferred st3). split; [done|]. rewrite Ht3. split.
    + repeat apply free_of_app; try done. repeat constructor. by intros [].
    + intros _. by rewrite !app_assoc, last_snoc.
  - exists (trace st2), (deferred st2). split; [done|]. split; [done|]. done.
Qed.

End Closes.

(** * Properties of the commands *)

Lemma M_bind_stop {A B} (c : M A) (k : A → M B) s :
  c.2 = inl s → mbind k c = (c.1, inl s).
Proof. destruct c as [t [s'|a]]; simpl; [by intros [= ->]|done]. Qed.

Lemma M_bind_cont {A B} (c : M A) (k : A → M B) a :
  c.2 = inr a → mbind k c = (c.1 ++ (k a).1, (k a).2).
Proof.
  destruct c as [t [s'|a']]; simpl; [done|]. intros [= ->].
  unfold mbind, M_bind. by destruct (k a).
Qed.

Section Quiet.
Context (bad : event → Prop).

Lemma quiet_bind {A B} (c : M A) (k : A → M B) :
  quiet bad c → (∀ a, quiet bad (k a)) → quiet bad (mbind k c).
Proof.
  intros Hc Hk. destruct c as [t [s|a]] eqn:E.
  - by rewrite (M_bind_stop (t, inl s) k s).
  - rewrite (M_bind_cont (t, inr a) k a) by done.
    apply free_of_app; [done|apply Hk].
Qed.

Lemma quiet_ret {A} (a : A) : quiet bad (mret a).
Proof. constructor. Qed.

Lemma quiet_skip : quiet bad skip.
Proof. constructor. Qed.

Lemma quiet_stop {A} s : quiet bad (@stop_with A s).
Proof. constructor. Qed.

Lemma quiet_FailOn err : quiet bad (FailOn err).
Proof. destruct err; constructor. Qed.

Lemma quiet_WarnOn err : quiet bad (WarnOn err).
Proof. constructor. Qed.

Lemma quiet_lift_go {A} (c : go A) : quiet bad (lift_go c).
Proof. destruct c; constructor. Qed.

Lemma quiet_events t : free_of bad t → quiet bad (events t).
Proof. done. Qed.

Lemma quiet_Printf text : ¬ bad (Stdout text) → quiet bad (Printf text).
Proof. intros H. by repeat constructor. Qed.

Lemma quiet_Println text : ¬ bad (Stdout (text +:+ nl)) → quiet bad (Println text).
Proof. intros H. by repeat constructor. Qed.

Lemma quiet_call name : ¬ bad (Call name) → quiet bad (call name).
Proof. intros H. by repeat constructor. Qed.

Lemma quiet_print_image_stack idx stack :
  (∀ text, ¬ bad (Stdout text)) → quiet bad (print_image_stack idx stack).
Proof.
  intros H. revert idx. induction stack as [|layer stack IH]; intros idx.
  - constructor.
  - cbn [print_image_stack]. apply quiet_bind; [by apply quiet_Printf|].
    intros _. apply IH.
Qed.

End Quiet.

Lemma not_save_Stdout text : ¬ is_save (Stdout text).
Proof. by intros []. Qed.
Lemma not_save_Call name : ¬ is_save (Call name).
Proof. by intros []. Qed.
Lemma not_spawn_Stdout text : ¬ is_spawn (Stdout text).
Proof. by intros []. Qed.
Lemma not_spawn_Call name : ¬ is_spawn (Call name).
Proof. by intros []. Qed.

Lemma Start_saves_nothing p : free_of is_save (Start p).
Proof. unfold Start. destruct (PrintState p); repeat constructor; by intros []. Qed.

(** Proves [quiet bad c] for a step built from prints, calls and tests. *)
Ltac quiet_step :=
  first
    [ apply quiet_bind; [|intros ?]
    | apply quiet_ret | apply quiet_skip | apply quiet_stop
    | apply quiet_FailOn | apply quiet_WarnOn | apply quiet_lift_go
    | apply quiet_Printf; first [apply not_save_Stdout | apply not_spawn_Stdout]
    | apply quiet_Println; first [apply not_save_Stdout | apply not_spawn_Stdout]
    | apply quiet_call; first [apply not_save_Call | apply not_spawn_Call]
    | apply quiet_print_image_stack;
        first [apply not_save_Stdout | apply not_spawn_Stdout]
    | apply quiet_events; first [apply Start_saves_nothing
                                | by repeat constructor; intros []]
    | match goal with
      | |- quiet _ (if ?b then _ else _) => destruct b
      | |- quiet _ (match ?x with _ => _ end) => destruct x
      end ].

Lemma build_basic_image_saves_nothing env buildFromDockerfile imageRef
    customImageTag doShowBuildLogs :
  quiet is_save
    (build_basic_image env buildFromDockerfile imageRef customImageTag
       doShowBuildLogs).
Proof. unfold build_basic_image. repeat quiet_step. Qed.

Lemma build_basic_image_spawns_nothing env buildFromDockerfile imageRef
    customImageTag doShowBuildLogs :
  quiet is_spawn
    (build_basic_image env buildFromDockerfile imageRef customImageTag
       doShowBuildLogs).
Proof. unfold build_basic_image. repeat quiet_step. Qed.

Ltac quiet_tac :=
  repeat first
    [ apply build_basic_image_saves_nothing
    | apply build_basic_image_spawns_nothing
    | quiet_step ].

Lemma saves_at_end_bind {A} clean (c : M A) (k : A → M unit) :
  quiet is_save c → (∀ a, saves_at_end clean (k a)) →
  saves_at_end clean (mbind k c).
Proof.
  intros Hc Hk. destruct c as [t [s|a]] eqn:E.
  - by rewrite (M_bind_stop (t, inl s) k s).
  - rewrite (M_bind_cont (t, inr a) k a) by done.
    specialize (Hk a). unfold saves_at_end in *. simpl.
    destruct ((k a).2) as [s|[]].
    + by apply free_of_app.
    + destruct Hk as (pre & r & -> & Hr & Hpre).
      exists (t ++ pre), r. split; [by rewrite app_assoc|].
      split; [done|by apply free_of_app].
Qed.

Lemma saves_at_end_save clean r :
  State r = CmdStateDone → saves_at_end clean (events [ReportSave r]).
Proof. intros Hr. exists [], r. split; [done|]. split; [done|constructor]. Qed.

Lemma gives_up_probing_bind {A} pfx (c : M A) (k : A → M unit) a :
  quiet is_spawn c → c.2 = inr a → gives_up_probing pfx (k a) →
  gives_up_probing pfx (mbind k c).
Proof.
  intros Hq Hc (Hret & pre & Hpre & Hfree).
  rewrite (M_bind_cont c k a Hc). split; [done|]. simpl.
  exists (c.1 ++ pre). split; [by rewrite Hpre, app_assoc|by apply free_of_app].
Qed.

Lemma gives_up_probing_here {A} pfx (c : M A) (k : A → M unit) :
  c = (no_ports_ending pfx, inl EarlyReturn) → gives_up_probing pfx (mbind k c).
Proof.
  intros ->. split; [done|]. exists []. split; [done|constructor].
Qed.

(** ** The claims about the commands *)

(** C2, as stated, does not hold: a build of an image that is not found
    returns without writing the report. *)
Lemma report_not_saved_on_early_exit :
  ¬ (∀ env doDebug buildFromDockerfile imageRef customImageTag doHTTPProbe
       httpProbeCmds httpProbeRetryCount httpProbeRetryWait httpProbePorts
       doHTTPProbeFull doRmFileArtifacts copyMetaArtifactsLocation
       doShowBuildLogs overrides_Network continueAfter,
       ∃ r, ReportSave r ∈
              (OnBuild env doDebug buildFromDockerfile imageRef customImageTag
                 doHTTPProbe httpProbeCmds httpProbeRetryCount
                 httpProbeRetryWait httpProbePorts doHTTPProbeFull
                 doRmFileArtifacts copyMetaArtifactsLocation doShowBuildLogs
                 overrides_Network continueAfter).1).
Proof.
  intros H.
  destruct (H (demo_env true true web_ports) false "" "my/app" "" true [get_root]
              0 0 [] false false "" false "" after_enter) as [r Hr].
  vm_compute in Hr.
  repeat (apply elem_of_cons in Hr as [Hr|Hr]; [discriminate Hr|]).
  by apply elem_of_nil in Hr.
Qed.

(** C2 (amended): a run of build or profile writes the report exactly
    when it reaches the end of the command; the write is then the last thing
    the run does, and the state written is the final one, [CmdStateDone]
    (for build: when the minified image could be inspected).  A run that
    stops early (image not found, no port to probe, no data collected, a
    failing collaborator, an exit) writes no report. *)
Theorem report_saved_at_end
    env doDebug buildFromDockerfile imageRef customImageTag doHTTPProbe
    httpProbeCmds httpProbeRetryCount httpProbeRetryWait httpProbePorts
    doHTTPProbeFull doRmFileArtifacts copyMetaArtifactsLocation doShowBuildLogs
    overrides_Network continueAfter :
  saves_at_end (new_Inspect_err env = None)
    (OnBuild env doDebug buildFromDockerfile imageRef customImageTag doHTTPProbe
       httpProbeCmds httpProbeRetryCount httpProbeRetryWait httpProbePorts
       doHTTPProbeFull doRmFileArtifacts copyMetaArtifactsLocation
       doShowBuildLogs overrides_Network continueAfter) ∧
  saves_at_end True
    (OnProfile env doDebug imageRef doHTTPProbe httpProbeCmds
       httpProbeRetryCount httpProbeRetryWait httpProbePorts doHTTPProbeFull
       copyMetaArtifactsLocation overrides_Network continueAfter).
Proof.
  split.
  - unfold OnBuild.
    repeat (cbv zeta; apply saves_at_end_bind; [quiet_tac|intros ?]).
    by apply saves_at_end_save.
  - unfold OnProfile.
    repeat (cbv zeta; apply saves_at_end_bind; [quiet_tac|intros ?]).
    by apply saves_at_end_save.
Qed.

Lemma Split_not_nil sep s : Split sep s ≠ [].
Proof.
  destruct s as [|c s]; simpl; [done|].
  destruct (Ascii.eqb c sep); [done|]. by destruct (Split sep s).
Qed.

Lemma continue_bind {A B} (c : M A) (k : A → M B) a b :
  c.2 = inr a → (k a).2 = inr b → (mbind k c).2 = inr b.
Proof. intros Hc Hk. by rewrite (M_bind_cont c k a Hc). Qed.

Lemma print_image_stack_continues idx stack :
  (print_image_stack idx stack).2 = inr tt.
Proof.
  revert idx. induction stack as [|layer stack IH]; intros idx; [done|].
  cbn [print_image_stack]. by eapply continue_bind.
Qed.

(** Proves that a step goes on: its outcome is [inr _]. *)
Ltac continue_tac :=
  first
    [ reflexivity
    | apply print_image_stack_continues
    | eapply continue_bind; [continue_tac|continue_tac]
    | match goal with
      | |- (if ?b then _ else _).2 = inr _ => destruct b; continue_tac
      | |- (match ?x with _ => _ end).2 = inr _ => destruct x; continue_tac
      end ].

Ltac skip_step :=
  cbv zeta;
  eapply gives_up_probing_bind; [solve [quiet_tac] | solve [continue_tac] | ].

(** C7: when probing is enabled (requested, or the continue mode is
    [probe]) and the plan of the constructed probe is empty, build and
    profile print [state=http.probe.error] with its message, finish
    monitoring, shut the container down, print [state=exited] and return
    (no exit code, no failure); no probe worker has been started. *)
Theorem empty_plan_gives_up_probing
    env doDebug buildFromDockerfile imageRef customImageTag doHTTPProbe
    httpProbeCmds httpProbeRetryCount httpProbeRetryWait httpProbePorts
    doHTTPProbeFull doRmFileArtifacts copyMetaArtifactsLocation doShowBuildLogs
    overrides_Network continueAfter :
  container_started env →
  basic_image_built env buildFromDockerfile customImageTag →
  doHTTPProbe = true ∨ Mode continueAfter = "probe" →
  (∀ pfx, ∃ probe,
     NewCustomProbe (order env) (containerInspector env) httpProbeCmds
       httpProbeRetryCount httpProbeRetryWait httpProbePorts doHTTPProbeFull
       true pfx = Ret (probe, None) ∧ Ports probe = []) →
  gives_up_probing "docker-slim[build]:"
    (OnBuild env doDebug buildFromDockerfile imageRef customImageTag doHTTPProbe
       httpProbeCmds httpProbeRetryCount httpProbeRetryWait httpProbePorts
       doHTTPProbeFull doRmFileArtifacts copyMetaArtifactsLocation
       doShowBuildLogs overrides_Network continueAfter) ∧
  gives_up_probing "docker-slim[profile]:"
    (OnProfile env doDebug imageRef doHTTPProbe httpProbeCmds
       httpProbeRetryCount httpProbeRetryWait httpProbePorts doHTTPProbeFull
       copyMetaArtifactsLocation overrides_Network continueAfter).
Proof.
  intros (Hnet & Hnew & Hno & Hinspect & Hdata & Hcont & Hrun) Hbuilt Hprobe Hplan.
  assert (Hon : (if String.eqb "probe" (Mode continueAfter) then true else doHTTPProbe)
                = true).
  { destruct Hprobe as [-> | ->]; [by destruct (String.eqb _ _)|done]. }
  split.
  - destruct (Hplan "docker-slim[build]:") as (probe & Hret & Hports).
    assert (Hfat : ∃ name,
      (build_basic_image env buildFromDockerfile imageRef customImageTag
         doShowBuildLogs).2 = inr name).
    { unfold build_basic_image.
      destruct Hbuilt as [-> | (Htag & Hb1 & Hb2)]; [by eexists|].
      rewrite Hb1, Hb2. unfold nonempty.
      destruct (String.eqb buildFromDockerfile ""); simpl; [by eexists|].
      destruct Htag as [-> | Hlen]; [destruct doShowBuildLogs; by eexists|].
      destruct (String.eqb customImageTag ""); simpl;
        [destruct doShowBuildLogs; by eexists|].
      pose proof (Split_not_nil ":" customImageTag) as Hnil.
      destruct (Split ":" customImageTag) as [|a [|b [|c l]]];
        simpl in Hlen; [done| | |lia]; destruct doShowBuildLogs; by eexists. }
    destruct Hfat as (name & Hfat).
    unfold OnBuild. rewrite Hnet, Hnew, Hno, Hinspect, Hdata, Hcont, Hrun, Hon.
    do 4 skip_step.
    cbv zeta. eapply (gives_up_probing_bind _ _ _ name);
      [apply build_basic_image_spawns_nothing|exact Hfat|].
    repeat skip_step.
    cbv zeta. apply gives_up_probing_here.
    rewrite Hret. simpl. by rewrite Hports.
  - destruct (Hplan "docker-slim[profile]:") as (probe & Hret & Hports).
    unfold OnProfile. rewrite Hnet, Hnew, Hno, Hinspect, Hdata, Hcont, Hrun, Hon.
    repeat skip_step.
    cbv zeta. apply gives_up_probing_here.
    rewrite Hret. simpl. by rewrite Hports.
Qed.

Lemma empty_plan_gives_up_probing_witness :
  gives_up_probing "docker-slim[build]:"
    (OnBuild (demo_env false true control_only_ports) false "" "my/app" "" true
       [get_root] 0 0 [] false false "" false "" after_probe) ∧
  gives_up_probing "docker-slim[profile]:"
    (OnProfile (demo_env false true control_only_ports) false "my/app" true
       [get_root] 0 0 [] false "" "" after_probe).
Proof.
  apply empty_plan_gives_up_probing.
  - repeat split; reflexivity.
  - left. reflexivity.
  - left. reflexivity.
  - intros pfx. eexists. split; vm_compute; reflexivity.
Defined.

(** C8 (evaluation at the failing input): a profile run whose container
    starts prints its [info=container] line with the prefix of the build
    command. *)
Lemma profile_prints_build_prefix :
  let line := "docker-slim[build]: info=container name=dockerslimk_4242_20170101000000 id=8f1e target.port.list=[32780] target.port.info=[80/tcp => 0.0.0.0:32780] message='YOU CAN USE THESE PORTS TO INTERACT WITH THE CONTAINER'" in
  line ∈ stdout_lines
           (OnProfile (demo_env false true web_ports) false "my/app" false
              [get_root] 0 0 [] false "" "" after_enter).1 ∧
  String.prefix "docker-slim[profile]:" line = false.
Proof.
  split; [|vm_compute; reflexivity].
  vm_compute. do 6 apply list_elem_of_further. apply list_elem_of_here.
Qed.

(** The line above is the only one: every other text a profile run writes
    starts with [docker-slim[profile]:]. *)
Lemma quiet_bind_outcome {A B} bad (c : M A) (k : A → M B) :
  quiet bad c → (∀ a, c.2 = inr a → quiet bad (k a)) → quiet bad (mbind k c).
Proof.
  intros Hc Hk. destruct c as [t [s|a]] eqn:E.
  - by rewrite (M_bind_stop (t, inl s) k s).
  - rewrite (M_bind_cont (t, inr a) k a) by done.
    apply free_of_app; [done|by apply Hk].
Qed.

Lemma NewCustomProbe_prints order insp cmds retryCount retryWait targetPorts
    probeFull printState printPrefix probe err :
  NewCustomProbe order insp cmds retryCount retryWait targetPorts probeFull
    printState printPrefix = Ret (probe, err) →
  PrintState probe = printState ∧ PrintPrefix probe = printPrefix.
Proof.
  unfold NewCustomProbe.
  destruct (availablePorts_loop insp _ ∅) as [s|e]; simpl; [|done].
  case_bool_decide.
  - destruct (targetPorts_loop insp targetPorts []) as [ports|e]; simpl; [|done].
    by intros [= <- <-].
  - destruct (DockerfileInfo insp) as [info|]; [|done].
    destruct (exposedPorts_loop insp _ [] s) as [[ports av]|e]; simpl; [|done].
    by intros [= <- <-].
Qed.

Ltac profile_text :=
  first [ apply quiet_Printf | apply quiet_Println ];
  simpl; intros [? ?]; discriminate.

Lemma profile_prefix_elsewhere
    env doDebug imageRef doHTTPProbe httpProbeCmds httpProbeRetryCount
    httpProbeRetryWait httpProbePorts doHTTPProbeFull copyMetaArtifactsLocation
    overrides_Network continueAfter :
  quiet wrong_profile_prefix
    (OnProfile env doDebug imageRef doHTTPProbe httpProbeCmds
       httpProbeRetryCount httpProbeRetryWait httpProbePorts doHTTPProbeFull
       copyMetaArtifactsLocation overrides_Network continueAfter).
Proof.
  unfold OnProfile.
  repeat first
    [ apply quiet_ret | apply quiet_skip | apply quiet_stop
    | apply quiet_FailOn | apply quiet_WarnOn
    | apply quiet_call; by intros []
    | profile_text
    | apply quiet_events; by repeat constructor; intros []
    | match goal with
      | |- quiet _ (mbind _ (lift_go _)) =>
          apply quiet_bind_outcome; [apply quiet_lift_go|intros [probe err] Hret]
      | |- quiet _ (mbind _ _) => apply quiet_bind; [|intros ?]
      | |- quiet _ (if ?b then _ else _) => destruct b
      | |- quiet _ (match ?x with _ => _ end) => destruct x
      end ].
  destruct (NewCustomProbe _ _ _ _ _ _ _ _ _) as [pe|e] eqn:Hnew; [|done].
  injection Hret as ->.
  apply NewCustomProbe_prints in Hnew as [Hstate Hprefix].
  apply quiet_events. unfold Start. rewrite Hstate, Hprefix. simpl.
  repeat constructor; [intros [? ?]; discriminate|intros []].
Qed.
